(** * Dynamic ADK agent factory: generation, patching and sandboxed execution

    A shallow embedding of the code-generation pipeline of
    [dynamic_agents/dynamic_with_gradio.py] (and of the older command-line
    variant [dynamic_agents/dynamic_agent.py]) together with the properties
    its specification states about it.

    The pipeline asks a language model for a script, takes the script out
    of the answer, checks it for five required texts, patches it line by
    line, and runs it with a restricted set of builtins and an import hook.
    The file follows that order: Python strings, [_safe_import], the patch
    pass, [_llm_completion], extraction and validation, the generators,
    [run_generated_adk], a small interpreter for straight-line scripts,
    and then the properties.

    Conventions.
    - A Python [str] is a [string]; one [ascii] stands for one code point
      below 256.  The character classes below are the ones CPython uses for
      [str.isspace], [str.splitlines] and the [re] classes [\s] and [\w] on
      that range.
    - A Python call that may raise is a function into [py_result].
    - What lies outside the scripts (the provider, the interpreter, the
      environment) is a variable of the section that needs it. *)

From Stdlib Require Import Ascii NArith ZArith QArith Qround Bool.
From stdpp Require Import base option list gmap strings pretty.

Local Open Scope stdpp_scope.

(** ** Exceptions and results *)

Inductive exc_class :=
| BaseException
| Exception
| RuntimeError
| ValueError
| TypeError
| NameError
| ImportError
| KeyError
| IndexError
| SyntaxError
| AttributeError
| OtherClass (name : string) (derives_Exception : bool).

(** [except Exception] catches every class but the ones that derive from
    [BaseException] only. *)
Definition is_Exception (c : exc_class) : bool :=
  match c with
  | BaseException => false
  | OtherClass _ b => b
  | _ => true
  end.

(** An exception instance: its class, what [str(e)] gives, and the
    [__cause__] set by [raise ... from e]. For the exceptions of the
    interpreter and of the scripts here [str(e)] is a text. For an instance
    of a class that generated code has defined, [str(e)] runs the [__str__]
    of that class, which may raise: [ExnStrRaises c e' cause] is such an
    instance, [e'] being what its [__str__] raises. *)
#[warnings="-register-all"]
Inductive exn :=
| Exn (cls : exc_class) (msg : string) (cause : option exn)
| ExnStrRaises (cls : exc_class) (str_raises : exn) (cause : option exn).

Definition exn_class (e : exn) : exc_class :=
  match e with Exn c _ _ | ExnStrRaises c _ _ => c end.

Definition caught_by_except_Exception (e : exn) : bool :=
  is_Exception (exn_class e).

Inductive py_result (A : Type) :=
| Return (a : A)
| Raise (e : exn).
Arguments Return {A} a.
Arguments Raise {A} e.

(** [str(e)], also what an f-string makes of [e] *)
Definition exn_str (e : exn) : py_result string :=
  match e with
  | Exn _ m _ => Return m
  | ExnStrRaises _ e' _ => Raise e'
  end.

(** ** Python strings *)

Module PyStr.

Definition code (c : ascii) : N := N_of_ascii c.

(** [str.isspace] / [\s] *)
Definition is_space (c : ascii) : bool :=
  let n := code c in
  ((9 <=? n) && (n <=? 13) || (28 <=? n) && (n <=? 32)
   || (n =? 133) || (n =? 160))%N.

(** line boundaries of [str.splitlines] *)
Definition is_linebreak (c : ascii) : bool :=
  let n := code c in
  ((10 <=? n) && (n <=? 13) || (28 <=? n) && (n <=? 30) || (n =? 133))%N.

(** [\w] *)
Definition is_word (c : ascii) : bool :=
  let n := code c in
  ((48 <=? n) && (n <=? 57) || (65 <=? n) && (n <=? 90) || (n =? 95)
   || (97 <=? n) && (n <=? 122)
   || (n =? 170) || (n =? 178) || (n =? 179) || (n =? 181) || (n =? 185)
   || (n =? 186) || (188 <=? n) && (n <=? 190)
   || (192 <=? n) && (n <=? 214) || (216 <=? n) && (n <=? 246)
   || (248 <=? n))%N.

Definition LF : ascii := ascii_of_N 10.
Definition CR : ascii := ascii_of_N 13.
Definition nl : string := String LF "".
(** the double-quote character *)
Definition dq : string := String (ascii_of_N 34) "".

Fixpoint all_chars (p : ascii → bool) (s : string) : bool :=
  match s with
  | "" => true
  | String c s' => p c && all_chars p s'
  end.

(** [s.startswith(p)] *)
Fixpoint startswith (s p : string) {struct p} : bool :=
  match p, s with
  | "", _ => true
  | String a p', String b s' => bool_decide (a = b) && startswith s' p'
  | String _ _, "" => false
  end.

(** [sub in s] *)
Fixpoint contains (sub s : string) : bool :=
  startswith s sub ||
  match s with
  | "" => false
  | String _ s' => contains sub s'
  end.

(** [s[n:]] *)
Fixpoint drop (n : nat) (s : string) : string :=
  match n, s with
  | O, _ => s
  | S n', String _ s' => drop n' s'
  | S _, "" => ""
  end.

(** The rest of [s] after the literal prefix [p], if [s] starts with it. *)
Definition after (p s : string) : option string :=
  if startswith s p then Some (drop (String.length p) s) else None.

(** [s.lstrip()] *)
Fixpoint lstrip (s : string) : string :=
  match s with
  | String c s' => if is_space c then lstrip s' else s
  | "" => ""
  end.

(** [s.rstrip()] *)
Fixpoint rstrip (s : string) : string :=
  match s with
  | "" => ""
  | String c s' =>
      match rstrip s' with
      | "" => if is_space c then "" else String c ""
      | r => String c r
      end
  end.

(** [s.strip()] *)
Definition strip (s : string) : string := rstrip (lstrip s).

(** [len(s) - len(s.lstrip())] *)
Definition indent_of (s : string) : nat :=
  String.length s - String.length (lstrip s).

(** the leading white space itself *)
Fixpoint leading_space (s : string) : string :=
  match s with
  | String c s' => if is_space c then String c (leading_space s') else ""
  | "" => ""
  end.

(** [sep.join(parts)] *)
Fixpoint join (sep : string) (parts : list string) : string :=
  match parts with
  | [] => ""
  | [p] => p
  | p :: rest => p +:+ sep +:+ join sep rest
  end.

(** [s.splitlines()]: [cur] is the line being read, reversed, and
    [after_cr] says that the previous character was a carriage return, so
    that a line feed coming next belongs to the same boundary. A boundary
    at the very end opens no further line. *)
Fixpoint splitlines_go (after_cr : bool) (cur : string) (s : string)
  : list string :=
  match s with
  | "" => match cur with "" => [] | _ => [String.rev cur] end
  | String c s' =>
      if after_cr && bool_decide (c = LF) then splitlines_go false cur s'
      else if is_linebreak c then
        String.rev cur :: splitlines_go (bool_decide (c = CR)) "" s'
      else splitlines_go false (String c cur) s'
  end.

Definition splitlines (s : string) : list string := splitlines_go false "" s.

(** [re.sub(r"\r\n", "\n", s)] *)
Fixpoint crlf_to_lf (s : string) : string :=
  match s with
  | "" => ""
  | String c s' =>
      match s' with
      | String d s'' =>
          if bool_decide (c = CR) && bool_decide (d = LF)
          then String LF (crlf_to_lf s'')
          else String c (crlf_to_lf s')
      | "" => String c ""
      end
  end.

(** [s.partition(sep)] without the separator: the text before and after
    the leftmost occurrence of [sep]. *)
Fixpoint partition (sep s : string) : option (string * string) :=
  if startswith s sep then Some ("", drop (String.length sep) s)
  else match s with
       | "" => None
       | String c s' =>
           match partition sep s' with
           | Some (a, b) => Some (String c a, b)
           | None => None
           end
       end.

(** the last character and what is before it *)
Fixpoint unsnoc (s : string) : option (string * ascii) :=
  match s with
  | "" => None
  | String c s' =>
      match unsnoc s' with
      | None => Some ("", c)
      | Some (r, d) => Some (String c r, d)
      end
  end.

(** [\s+] : the rest after one or more white-space characters *)
Definition space1 (s : string) : option string :=
  match s with
  | String c _ => if is_space c then Some (lstrip s) else None
  | "" => None
  end.

Fixpoint skip_while (p : ascii → bool) (s : string) : string :=
  match s with
  | String c s' => if p c then skip_while p s' else s
  | "" => ""
  end.

(** [\w+] : the rest after one or more word characters *)
Definition word1 (s : string) : option string :=
  match s with
  | String c _ => if is_word c then Some (skip_while is_word s) else None
  | "" => None
  end.

(** lower case of an ASCII letter, for [re.IGNORECASE] on ASCII patterns *)
Definition lower (c : ascii) : ascii :=
  let n := code c in
  if ((65 <=? n) && (n <=? 90))%N then ascii_of_N (n + 32) else c.

(** [after] up to the case of ASCII letters; [p] is in lower case *)
Fixpoint after_ci (p s : string) {struct p} : option string :=
  match p, s with
  | "", _ => Some s
  | String a p', String b s' =>
      if bool_decide (a = lower b) then after_ci p' s' else None
  | String _ _, "" => None
  end.

(** the character [.] of a pattern compiled without [re.DOTALL] *)
Definition is_dot (c : ascii) : bool := negb (bool_decide (c = LF)).

(** Bind for the matchers below, which are written in the order of their
    pattern. *)
Definition andthen {A B} (o : option A) (k : A → option B) : option B :=
  match o with Some a => k a | None => None end.

End PyStr.

(** ** The import hook

    [ALLOWED_MODULE_PREFIXES], [ALLOWED_STD_MODULES] and [_safe_import] are
    the same in both scripts. *)

Definition ALLOWED_MODULE_PREFIXES : list string :=
  ["google"; "asyncio"; "typing"].

Definition ALLOWED_STD_MODULES : gset string :=
  {[ "io"; "json"; "re"; "os"; "contextlib"; "types"; "collections" ]}.

(** [name.startswith(prefixes)] with a tuple of prefixes *)
Definition startswith_any (name : string) (prefixes : list string) : bool :=
  existsb (PyStr.startswith name) prefixes.

Definition import_allowed (name : string) : bool :=
  startswith_any name ALLOWED_MODULE_PREFIXES
  || bool_decide (name ∈ ALLOWED_STD_MODULES).

(** What a call of the hook does: hand the call over to the interpreter's
    own [__import__] with the arguments it was given, or raise by itself. *)
Inductive hook_result (M : Type) :=
| Delegated (m : M)
| Rejected (e : exn).
Arguments Delegated {M} m.
Arguments Rejected {M} e.

Definition import_refused (name : string) : exn :=
  Exn ImportError
      ("Import of '" +:+ name +:+ "' is not allowed in this runner.") None.

Section SafeImport.
(** [Args] stands for the remaining arguments [globals], [locals],
    [fromlist] and [level]; [M] for whatever the real import yields. *)
Context {Args M : Type}.
Variable __import__ : string → Args → M.

Definition _safe_import (name : string) (args : Args) : hook_result M :=
  if import_allowed name
  then Delegated (__import__ name args)
  else Rejected (import_refused name).
End SafeImport.

(** ** The source patcher: [_patch_generated_code]

    The patterns are matched by functions written in the order of the
    pattern.  Every greedy run of a character class in them is followed by
    a literal character outside that class, so the first choice of the
    matcher is the only one that can succeed and no other choice is
    tried. *)

(** [re.match(r'\s*async\s+def\s+run_once\s*\(', line)] *)
Definition is_run_once_header (line : string) : bool :=
  match
    PyStr.andthen (PyStr.after "async" (PyStr.lstrip line)) (λ s,
    PyStr.andthen (PyStr.space1 s) (λ s,
    PyStr.andthen (PyStr.after "def" s) (λ s,
    PyStr.andthen (PyStr.space1 s) (λ s,
    PyStr.andthen (PyStr.after "run_once" s) (λ s,
    PyStr.after "(" (PyStr.lstrip s))))))
  with Some _ => true | None => false end.

(** the part [\s+\w+\s*\(] of the next pattern *)
Definition def_tail (s : string) : option string :=
  PyStr.andthen (PyStr.space1 s) (λ s,
  PyStr.andthen (PyStr.word1 s) (λ s,
  PyStr.after "(" (PyStr.lstrip s))).

(** [re.match(r'\s*(def|async\s+def)\s+\w+\s*\(', line)] *)
Definition is_def_header (line : string) : bool :=
  let s := PyStr.lstrip line in
  match
    match PyStr.after "def" s with
    | Some s1 => def_tail s1
    | None =>
        PyStr.andthen (PyStr.after "async" s) (λ s,
        PyStr.andthen (PyStr.space1 s) (λ s,
        PyStr.andthen (PyStr.after "def" s) def_tail))
    end
  with Some _ => true | None => false end.

(** The end of a pattern, a greedy group of [.] followed by [\)\s*$]: the
    text up to the closing bracket that only white space follows, which
    [.] must be able to match. *)
Definition upto_closing_paren (s : string) : option string :=
  match PyStr.unsnoc (PyStr.rstrip s) with
  | Some (inner, c) =>
      if bool_decide (c = ")"%char) && PyStr.all_chars PyStr.is_dot inner
      then Some inner else None
  | None => None
  end.

(** [re.match(r'^\s*print\(.*\)\s*$', line)] *)
Definition is_pure_print (line : string) : bool :=
  match
    PyStr.andthen (PyStr.after "print(" (PyStr.lstrip line)) upto_closing_paren
  with Some _ => true | None => false end.

(** The loop of step "Strip pure print(...) lines inside run_once", started
    in the state [(in_run_once, run_indent)]; the result is [out_lines]. *)
Fixpoint strip_prints (in_run_once : bool) (run_indent : option nat)
    (lines : list string) : list string :=
  match lines with
  | [] => []
  | line :: rest =>
      if negb in_run_once && is_run_once_header line then
        line :: strip_prints true (Some (PyStr.indent_of line)) rest
      else if in_run_once then
        if is_def_header line
           && (PyStr.indent_of line <=? default 0 run_indent)
        then line :: strip_prints false run_indent rest
        else if is_pure_print line then strip_prints true run_indent rest
        else line :: strip_prints true run_indent rest
      else line :: strip_prints false run_indent rest
  end.

Definition strip_prints_in_run_once (code : string) : string :=
  PyStr.join PyStr.nl (strip_prints false None (PyStr.splitlines code)).

(** [pat.match(ln)] for the pattern [pat] of [_normalize_create_session]:
    group 1 is the leading white space, then comes an optional
    [await\s+], the literal [session_service.create_session(], group 2 and
    the end [\)\s*$].  The result is [(indent, args)]. *)
Definition match_create_session (ln : string) : option (string * string) :=
  let s := PyStr.lstrip ln in
  PyStr.andthen
    (match PyStr.after "await" s with
     | Some s1 => PyStr.space1 s1
     | None => Some s
     end) (λ s,
  PyStr.andthen (PyStr.after "session_service.create_session(" s) (λ s,
  PyStr.andthen (upto_closing_paren s) (λ args,
  Some (PyStr.leading_space ln, args)))).

(** the lines by which one line is replaced *)
Definition normalize_line (ln : string) : list string :=
  match match_create_session ln with
  | Some (indent, args) =>
      [ indent +:+ "_maybe = session_service.create_session(" +:+ args +:+ ")";
        indent +:+ "if hasattr(_maybe, '__await__'):";
        indent +:+ "    await _maybe" ]
  | None => [ln]
  end.

Definition _normalize_create_session (src : string) : string :=
  PyStr.join PyStr.nl (concat (map normalize_line (PyStr.splitlines src))).

(** Step 3, the constants. *)
Definition CONSTANT_NAMES : list string := ["APP_NAME"; "USER_ID"; "SESSION_ID"].

Definition need_constants (patched : string) : bool :=
  PyStr.contains "session_service.create_session" patched
  && negb (forallb (λ k, PyStr.contains k patched) CONSTANT_NAMES).

Definition header : string :=
  "APP_NAME = 'dyn_adk'" +:+ PyStr.nl +:+ "USER_ID = 'user-1'" +:+ PyStr.nl
  +:+ "SESSION_ID = 'sess-1'" +:+ PyStr.nl +:+ PyStr.nl.

Definition inject_constants (patched : string) : string :=
  if need_constants patched then header +:+ patched else patched.

(** Step 4, the typos of the [__main__] guard. *)

Definition MAIN_GUARD : string :=
  "if __name__ == " +:+ PyStr.dq +:+ "__main__" +:+ PyStr.dq +:+ ":".

(** a single or a double quote *)
Definition quote (s : string) : option string :=
  match s with
  | String c s' =>
      if bool_decide (c = "'"%char) || bool_decide (String c "" = PyStr.dq)
      then Some s' else None
  | "" => None
  end.

(** The pattern [if\s+NAME\s*==\s*QUOTE MAIN QUOTE\s*:] at the start of [s]
    (the three patterns of step 4 differ in [NAME] and [MAIN] only); the
    result is the text after the match. *)
Definition match_guard_typo (NAME MAIN s : string) : option string :=
  PyStr.andthen (PyStr.after "if" s) (λ s,
  PyStr.andthen (PyStr.space1 s) (λ s,
  PyStr.andthen (PyStr.after NAME s) (λ s,
  PyStr.andthen (PyStr.after "==" (PyStr.lstrip s)) (λ s,
  PyStr.andthen (quote (PyStr.lstrip s)) (λ s,
  PyStr.andthen (PyStr.after MAIN s) (λ s,
  PyStr.andthen (quote s) (λ s,
  PyStr.after ":" (PyStr.lstrip s)))))))).

(** [re.sub(r'\bif\s+NAME..:', MAIN_GUARD, s)]: [prev_word] says that the
    character before [s] is a word character, in which case [\b] fails
    before [if]; [skip] counts the characters of a match still to pass. *)
Fixpoint sub_guard_typo (NAME MAIN : string) (skip : nat) (prev_word : bool)
    (s : string) : string :=
  match s with
  | "" => ""
  | String c s' =>
      match skip with
      | S k => sub_guard_typo NAME MAIN k (PyStr.is_word c) s'
      | O =>
          match (if prev_word then None else match_guard_typo NAME MAIN s) with
          | Some rest =>
              MAIN_GUARD +:+
              sub_guard_typo NAME MAIN (String.length s' - String.length rest)
                (PyStr.is_word c) s'
          | None => String c (sub_guard_typo NAME MAIN 0 (PyStr.is_word c) s')
          end
      end
  end.

Definition fix_guard_typos (patched : string) : string :=
  let patched := sub_guard_typo "name" "main" 0 false patched in
  let patched := sub_guard_typo "__name__" "main" 0 false patched in
  sub_guard_typo "name" "__main__" 0 false patched.

(** Step 5: [re.search(r'if __name__ == "__main__":\s*$', patched)]. As
    [\s] matches a line feed too, the end [\s*$] asks for white space only
    up to the end of the text. *)
Fixpoint guard_without_body (patched : string) : bool :=
  match PyStr.after MAIN_GUARD patched with
  | Some r => PyStr.all_chars PyStr.is_space r
  | None => false
  end
  || match patched with
     | "" => false
     | String _ s' => guard_without_body s'
     end.

Definition DEFAULT_BODY : string :=
  PyStr.nl +:+ "    print(asyncio.run(run_once(INPUT_TEXT)))" +:+ PyStr.nl.

Definition ensure_guard_body (patched : string) : string :=
  if guard_without_body patched then patched +:+ DEFAULT_BODY else patched.

Definition _patch_generated_code (code : string) : string :=
  let patched := strip_prints_in_run_once code in
  let patched := _normalize_create_session patched in
  let patched := inject_constants patched in
  let patched := fix_guard_typos patched in
  ensure_guard_body patched.


(** ** The generation wrapper: [_llm_completion] *)

(** The first choice of a completion: [resp.choices[0].message["content"]],
    which may be [None]. *)
Record response := { content : option string }.

(** What the generators do to the outside world, in order. [Completion] is
    the call of [litellm.completion] by the wrapper, [PlainCompletion] the
    one of [dynamic_agent.py], which passes no timeout. [Sleep d] is the
    call [time.sleep(d)]; an exception of that call is swallowed by the
    inner [try]. *)
Inductive event :=
| Completion (model : string) (messages : list (string * string))
    (temperature : Q) (request_timeout timeout : Z)
| PlainCompletion (model : string) (messages : list (string * string))
    (temperature : Q)
| Sleep (seconds : Q).

Record world := {
  litellm_api_key : option string;  (* the module attribute [litellm.api_key] *)
  calls : nat;                      (* calls of [litellm.completion] so far *)
  log : list event
}.

Definition set_api_key (api_key : string) (w : world) : world :=
  match api_key with
  | "" => w
  | _ => {| litellm_api_key := Some api_key; calls := calls w; log := log w |}
  end.

Definition record_completion (ev : event) (w : world) : world :=
  {| litellm_api_key := litellm_api_key w; calls := S (calls w);
     log := log w ++ [ev] |}.

(** [0.75 * (2 ** attempt)]: the product is exact in binary floating point.
    From attempt 1024 on the power does not convert to a float, the
    [OverflowError] is swallowed and there is no sleep. *)
Definition backoff (attempt : Z) : option Q :=
  if (attempt <? 1024)%Z then Some ((3 # 4) * inject_Z (2 ^ attempt))%Q
  else None.

Definition sleep_backoff (attempt : Z) (w : world) : world :=
  match backoff attempt with
  | Some d => {| litellm_api_key := litellm_api_key w; calls := calls w;
                 log := log w ++ [Sleep d] |}
  | None => w
  end.

Section Generation.
(** [litellm_completion n] is the outcome of the call of
    [litellm.completion] that [n] calls went before. *)
Variable litellm_completion : nat → py_result response.

(** The loop [for attempt in range(max_retries)], with [todo] iterations
    left. Falling off the end of the loop, the function returns [None]. *)
Fixpoint attempts (todo : nat) (attempt : Z) (ev : event) (max_retries : Z)
    (w : world) : py_result (option response) * world :=
  match todo with
  | O => (Return None, w)
  | S todo' =>
      let w1 := record_completion ev w in
      match litellm_completion (calls w) with
      | Return resp => (Return (Some resp), w1)
      | Raise e =>
          if caught_by_except_Exception e then
            if (attempt <? max_retries - 1)%Z
            then attempts todo' (attempt + 1) ev max_retries
                   (sleep_backoff attempt w1)
            else (Raise e, w1)
          else (Raise e, w1)
      end
  end.

Definition _llm_completion (model api_key : string)
    (messages : list (string * string)) (timeout_s max_retries : Z)
    (w : world) : py_result (option response) * world :=
  attempts (Z.to_nat max_retries) 0
    (Completion model messages 0 timeout_s timeout_s) max_retries
    (set_api_key api_key w).
End Generation.

(** ** Extraction and validation of the generated source *)

Definition FENCE : string := "```".

(** [CODE_FENCE.search(text)], group 1. The pattern is an opening fence, an
    optional [python] or [py] in any case, white space, a lazy group and a
    closing fence, compiled with [re.DOTALL]. A back quote is neither a
    letter nor white space, so a closing fence cannot start before the end
    of the longest opening, and a search that fails at the leftmost fence
    fails at every later one. *)
Definition CODE_FENCE_search (text : string) : option string :=
  PyStr.andthen (PyStr.partition FENCE text) (λ p,
    let s := p.2 in
    let s := match PyStr.after_ci "python" s with
             | Some s1 => s1
             | None => match PyStr.after_ci "py" s with
                       | Some s1 => s1
                       | None => s
                       end
             end in
    PyStr.andthen (PyStr.partition FENCE (PyStr.lstrip s)) (λ q, Some q.1)).

(** the class of a fence tag: letters, digits, underscore and hyphen *)
Definition is_tag_char (c : ascii) : bool :=
  let n := PyStr.code c in
  ((48 <=? n) && (n <=? 57) || (65 <=? n) && (n <=? 90) || (n =? 95)
   || (97 <=? n) && (n <=? 122) || (n =? 45))%N.

(** [\s*\n] at the start of [s]: the text after the last line feed of the
    leading white space *)
Fixpoint after_last_lf (s : string) : option string :=
  match s with
  | String c s' =>
      if PyStr.is_space c then
        match after_last_lf s' with
        | Some r => Some r
        | None => if bool_decide (c = PyStr.LF) then Some s' else None
        end
      else None
  | "" => None
  end.

(** the first substitution of [_sanitize_fences]: an opening fence line at
    the very start is removed *)
Definition cut_opening_fence (code : string) : string :=
  match
    PyStr.andthen (PyStr.after FENCE (PyStr.lstrip code)) (λ s,
    after_last_lf (PyStr.skip_while is_tag_char s))
  with Some r => r | None => code end.

(** the second one: a line feed, a fence and white space up to the end are
    removed *)
Fixpoint cut_closing_fence (code : string) : string :=
  match PyStr.after (PyStr.nl +:+ FENCE) code with
  | Some r =>
      if PyStr.all_chars PyStr.is_space r then ""
      else match code with
           | "" => ""
           | String c s' => String c (cut_closing_fence s')
           end
  | None =>
      match code with
      | "" => ""
      | String c s' => String c (cut_closing_fence s')
      end
  end.

Definition _sanitize_fences (code : string) : string :=
  cut_closing_fence (cut_opening_fence code).

(** From the completion text to the candidate source: the lines from
    [CODE_FENCE.search(text or "")] to the normalisation of line ends, the
    same in both generators. *)
Definition extract_code (text : option string) : py_result string :=
  match CODE_FENCE_search (default "" text) with
  | None =>
      Raise (Exn ValueError "No python code block found in LLM output." None)
  | Some g =>
      Return (PyStr.crlf_to_lf (_sanitize_fences (PyStr.strip g)))
  end.

Definition required : list string :=
  [ "from google.adk.agents import Agent";
    "from google.adk.runners import Runner";
    "from google.adk.sessions import InMemorySessionService";
    "from google.genai import types";
    "async def run_once" ].

(** [all(s in code for s in required)] *)
Definition has_required (code : string) : bool :=
  forallb (λ s, PyStr.contains s code) required.

(** The forbidden patterns of the function-only generator, each looked for
    with [re.search]. [prev_word] is as in [sub_guard_typo]. *)
Fixpoint search_main_guard (code : string) : bool :=
  match
    PyStr.andthen (PyStr.after "if __name__" code) (λ s,
    PyStr.andthen (PyStr.after "==" (PyStr.lstrip s)) (λ s,
    PyStr.andthen (quote (PyStr.lstrip s)) (λ s,
    PyStr.andthen (PyStr.after "__main__" s) quote)))
  with Some _ => true | None => false end
  || match code with
     | "" => false
     | String _ s' => search_main_guard s'
     end.

Definition next_is_word (s : string) : bool :=
  match s with String c _ => PyStr.is_word c | "" => false end.

Fixpoint search_INPUT_TEXT (prev_word : bool) (code : string) : bool :=
  (negb prev_word &&
   match PyStr.after "INPUT_TEXT" code with
   | Some r => negb (next_is_word r)
   | None => false
   end)
  || match code with
     | "" => false
     | String c s' => search_INPUT_TEXT (PyStr.is_word c) s'
     end.

Fixpoint search_print_call (prev_word : bool) (code : string) : bool :=
  (negb prev_word &&
   match PyStr.andthen (PyStr.after "print" code)
           (λ s, PyStr.after "(" (PyStr.lstrip s)) with
   | Some _ => true
   | None => false
   end)
  || match code with
     | "" => false
     | String c s' => search_print_call (PyStr.is_word c) s'
     end.

Definition violates_function_only (code : string) : bool :=
  search_main_guard code || search_INPUT_TEXT false code
  || search_print_call false code.

(** ** The two generators *)

Definition build_user_prompt (user_intent : string) : string :=
  "Write the ADK child agent so that it fulfills this user intent:"
  +:+ PyStr.nl +:+ PyStr.nl +:+ user_intent +:+ PyStr.nl +:+ PyStr.nl
  +:+ "The script must follow the hard rules and print ONLY the final answer from run_once(INPUT_TEXT)."
  +:+ PyStr.nl.

(** [resp.choices[0].message["content"]]; the wrapper may have returned
    [None], which has no attribute [choices]. *)
Definition content_of (resp : option response) : py_result (option string) :=
  match resp with
  | Some r => Return (content r)
  | None =>
      Raise (Exn AttributeError
               "'NoneType' object has no attribute 'choices'" None)
  end.

(** the checks of [generate_adk_code] on the candidate source, and the
    patch pass on what they accept *)
Definition validate_and_patch (code : string) : py_result string :=
  if has_required code then Return (_patch_generated_code code)
  else Raise (Exn ValueError "Generated code missing required ADK pieces." None).

Definition validate_function_only (code : string) : py_result string :=
  if has_required code then
    if violates_function_only code then
      Raise (Exn ValueError
               "Generated code violated no-main / no-print / no-INPUT_TEXT rule."
               None)
    else Return code
  else
    Raise (Exn ValueError
             "Generated code missing required ADK pieces or run_once signature."
             None).

Definition bind_result {A B} (r : py_result A) (k : A → py_result B)
  : py_result B :=
  match r with Return a => k a | Raise e => Raise e end.

Section Generators.
Variable litellm_completion : nat → py_result response.
(** the two prompt texts, constants of the script *)
Variables ADK_SYSTEM_PROMPT ADK_SYSTEM_PROMPT_FUNCTION_ONLY : string.

Definition generate_adk_code (model api_key user_intent : string)
    (timeout_s max_retries : Z) (w : world) : py_result string * world :=
  let (resp, w') :=
    _llm_completion litellm_completion model api_key
      [("system", ADK_SYSTEM_PROMPT); ("user", build_user_prompt user_intent)]
      timeout_s max_retries w in
  (bind_result resp (λ resp,
   bind_result (content_of resp) (λ text,
   bind_result (extract_code text) validate_and_patch)), w').

Definition _generate_adk_code_function_only (model api_key user_intent : string)
    (timeout_s max_retries : Z) (w : world) : py_result string * world :=
  let (resp, w') :=
    _llm_completion litellm_completion model api_key
      [("system", ADK_SYSTEM_PROMPT_FUNCTION_ONLY);
       ("user", build_user_prompt user_intent)]
      timeout_s max_retries w in
  (bind_result resp (λ resp,
   bind_result (content_of resp) (λ text,
   bind_result (extract_code text) validate_function_only)), w').
End Generators.

(** ** The generator of [dynamic_agent.py]

    It calls [litellm.completion] once and directly, asks for the word
    [python] after the opening fence, requires the names of the four
    modules instead of the import statements, and has no patch pass. *)

(** the text after the leftmost opening fence that [python] follows, in
    any case *)
Fixpoint after_python_fence (text : string) : option string :=
  match PyStr.andthen (PyStr.after FENCE text) (PyStr.after_ci "python") with
  | Some r => Some r
  | None =>
      match text with
      | "" => None
      | String _ text' => after_python_fence text'
      end
  end.

(** [CODE_FENCE.search(text)], group 1, for the pattern of
    [dynamic_agent.py] *)
Definition cli_CODE_FENCE_search (text : string) : option string :=
  PyStr.andthen (after_python_fence text) (λ s,
  PyStr.andthen (PyStr.partition FENCE (PyStr.lstrip s)) (λ q, Some q.1)).

Definition cli_required : list string :=
  [ "google.adk.agents"; "google.adk.runners"; "google.adk.sessions";
    "google.genai"; "async def run_once" ].

Definition cli_validate (text : option string) : py_result string :=
  match cli_CODE_FENCE_search (default "" text) with
  | None =>
      Raise (Exn ValueError "No python code block found in LLM output." None)
  | Some g =>
      let code := PyStr.crlf_to_lf (PyStr.strip g) in
      if forallb (λ s, PyStr.contains s code) cli_required then Return code
      else Raise (Exn ValueError "Generated code missing required ADK pieces."
                    None)
  end.

(** [build_user_prompt] of [dynamic_agent.py], whose template is indented *)
Definition cli_build_user_prompt (user_intent : string) : string :=
  "Write the ADK child agent so that it fulfills this user intent:"
  +:+ PyStr.nl +:+ PyStr.nl +:+ "        " +:+ user_intent
  +:+ PyStr.nl +:+ PyStr.nl
  +:+ "        The script must follow the hard rules and print ONLY the final answer from run_once(INPUT_TEXT)."
  +:+ PyStr.nl +:+ "        ".

Section CliGenerator.
Variable litellm_completion : nat → py_result response.
Variable ADK_SYSTEM_PROMPT : string.

Definition cli_generate_adk_code (model api_key user_intent : string)
    (w : world) : py_result string * world :=
  let w0 := set_api_key api_key w in
  let w1 := record_completion
              (PlainCompletion model
                 [("system", ADK_SYSTEM_PROMPT);
                  ("user", cli_build_user_prompt user_intent)] 0) w0 in
  (bind_result (litellm_completion (calls w0)) (λ resp,
     cli_validate (content resp)), w1).
End CliGenerator.

(** ** The front end: [generate_and_run], up to the generated code *)

(** [max_retries = max(0, int(retries))], and 2 when the conversion raises
    ([retries] is [None] then). *)
Definition generate_and_run_max_retries (retries : option Z) : Z :=
  match retries with
  | Some r => Z.max 0 r
  | None => 2
  end.

(** [timeout_s = int(max(1, float(req_timeout)))], and 60 when a conversion
    raises ([req_timeout] is [None] then). *)
Definition generate_and_run_timeout (req_timeout : option Q) : Z :=
  match req_timeout with
  | Some q => if Qle_bool q 1 then 1 else Qfloor q
  | None => 60
  end.

Definition is_empty (s : string) : bool :=
  match s with "" => true | _ => false end.

Section FrontEnd.
Variable litellm_completion : nat → py_result response.
Variables ADK_SYSTEM_PROMPT ADK_SYSTEM_PROMPT_FUNCTION_ONLY : string.
(** one of the provider keys is set in [os.environ] *)
Variable key_in_environ : bool.

(** The body of the [try] of [generate_and_run] from "basic sanity" to
    "1) generate code depending on mode": what [code] is, or what is
    raised instead. *)
Definition generate_and_run_code (api_key model user_intent input_text : string)
    (function_only : bool) (req_timeout : option Q) (retries : option Z)
    (w : world) : py_result string * world :=
  if is_empty (PyStr.strip user_intent) then
    (Raise (Exn ValueError "User Intent is empty." None), w)
  else if is_empty (PyStr.strip input_text) then
    (Raise (Exn ValueError "Input Text is empty." None), w)
  else if negb (negb (is_empty api_key) || key_in_environ) then
    (Raise (Exn RuntimeError
              "No provider API key found. Provide an API key or set GEMINI_API_KEY / LITELLM_API_KEY in environment."
              None), w)
  else
    let timeout_s := generate_and_run_timeout req_timeout in
    let max_retries := generate_and_run_max_retries retries in
    if function_only then
      _generate_adk_code_function_only litellm_completion
        ADK_SYSTEM_PROMPT_FUNCTION_ONLY model (PyStr.strip api_key)
        (PyStr.strip user_intent) timeout_s max_retries w
    else
      generate_adk_code litellm_completion ADK_SYSTEM_PROMPT model
        (PyStr.strip api_key) (PyStr.strip user_intent) timeout_s max_retries w.
End FrontEnd.

(** ** The sandboxed executor: [run_generated_adk] *)

Inductive value :=
| VNone
| VInt (z : Z)
| VStr (s : string)
| VHost (name : string)     (* [getattr(builtins, name)] *)
| VSafeImport               (* the function [_safe_import] *)
| VObject (class : string) (is_callable : bool).
                            (* any other object, of class [class] *)

(** An entry of the globals [g]: a plain value, or the dictionary bound to
    [__builtins__]. *)
Inductive gval :=
| Val (v : value)
| BuiltinsDict (d : gmap string value).

Definition SAFE_BUILTIN_NAMES : gset string :=
  {[ "print"; "len"; "range"; "enumerate"; "zip"; "min"; "max"; "abs";
     "str"; "int"; "float"; "bool"; "dict"; "list"; "set"; "tuple";
     "isinstance"; "issubclass"; "getattr"; "setattr"; "hasattr";
     "object"; "type"; "property"; "staticmethod"; "classmethod";
     "sorted"; "sum"; "map"; "filter"; "any"; "all";
     "Exception"; "BaseException"; "RuntimeError"; "ValueError";
     "TypeError"; "NameError"; "ImportError"; "KeyError"; "IndexError";
     "__build_class__" ]}.

(** [callable(v)]; every builtin of [SAFE_BUILTIN_NAMES] is a function or a
    class. *)
Definition callable (v : option gval) : bool :=
  match v with
  | Some (Val (VObject _ c)) => c
  | Some (Val (VHost _)) | Some (Val VSafeImport) => true
  | _ => false
  end.

Definition type_name (v : value) : string :=
  match v with
  | VNone => "NoneType"
  | VInt _ => "int"
  | VStr _ => "str"
  | VHost _ | VSafeImport => "builtin_function_or_method"
  | VObject c _ => c
  end.

(** The [SyntaxError] of [compile]. *)
Record syntax_error := {
  se_str : string;          (* [str(se)] *)
  lineno : option Z;
  offset : option Z;
  text : option string
}.

Definition exn_of_syntax_error (se : syntax_error) : exn :=
  Exn SyntaxError (se_str se) None.

(** What [compile(code, "<generated_adk>", "exec")] does, and what [exec]
    does first when it is handed a source text: it goes through, raises a
    [SyntaxError] (or a subclass, which the handlers treat alike), or raises
    an error of another class ([ValueError] for a source with a null
    character, [RecursionError], [MemoryError]). *)
Inductive compiled :=
| Compiled
| CompileSyntaxError (se : syntax_error)
| CompileRaised (e : exn).

(** What executing a compiled unit in a namespace does: the text written
    to standard output, the namespace it leaves, and the exception it ends
    with, if any. *)
Record behaviour := {
  printed : string;
  final : gmap string gval;
  raised : option exn
}.

(** [str(x)] of an optional integer *)
Definition str_opt_Z (x : option Z) : string :=
  match x with Some z => pretty z | None => "None" end.

(** the format [{n:4d}] *)
Definition pad4 (n : Z) : string :=
  let d := pretty n in
  String.concat "" (replicate (4 - String.length d) " ") +:+ d.

(** the annotated lines around line [ln] *)
Definition snippet_text (lines : list string) (ln : Z) : string :=
  let start := Z.max 0 (ln - 4) in
  let stop := Z.min (Z.of_nat (length lines)) (ln + 3) in
  PyStr.join PyStr.nl
    (map (λ i : Z,
            (if bool_decide (i + 1 = ln)%Z then ">> " else "   ")
            +:+ pad4 (i + 1) +:+ ": "
            +:+ default "" (lines !! Z.to_nat i))
         (seqZ start (stop - start))).

(** [se.lineno or 1] *)
Definition lineno_or_1 (se : syntax_error) : Z :=
  match lineno se with
  | Some 0%Z | None => 1%Z
  | Some n => n
  end.

Definition syntax_error_report (src : string) (se : syntax_error) : exn :=
  Exn SyntaxError
    ("SyntaxError in generated code at line " +:+ str_opt_Z (lineno se)
     +:+ ", offset " +:+ str_opt_Z (offset se) +:+ ":" +:+ PyStr.nl
     +:+ default "" (text se) +:+ PyStr.nl +:+ PyStr.nl
     +:+ "Context:" +:+ PyStr.nl
     +:+ snippet_text (PyStr.splitlines src) (lineno_or_1 se))
    (Some (exn_of_syntax_error se)).

Section Executor.
(** The interpreter, outside the scripts:
    - [builtins] are the names the module [builtins] has;
    - [Code] are the source texts, [source code] the text as a string;
    - [compile code] is what compiling the source does;
    - [exec code g] is what running the compiled unit in [g] does;
    - [call_run_once f x] is [asyncio.run(f(x))];
    - [call_strip v] is [v.strip()] for a value [v] that is not a string,
      [None] or an integer;
    - [format_exc e] is [traceback.format_exc(limit=6)] while [e] is
      handled. *)
Variable builtins : gset string.
Context {Code : Type}.
Variable source : Code → string.
Variable compile : Code → compiled.
Variable exec : Code → gmap string gval → behaviour.
Variable call_run_once : option gval → string → py_result value.
Variable call_strip : value → py_result value.
Variable format_exc : exn → string.

(** [{n: getattr(builtins, n) for n in SAFE_BUILTIN_NAMES
     if hasattr(builtins, n)}], then the hook under [__import__] *)
Definition safe_builtins : gmap string value :=
  <["__import__" := VSafeImport]>
    (set_to_map (λ n, (n, VHost n))
       (filter (λ n, n ∈ builtins) SAFE_BUILTIN_NAMES)).

(** the globals [g] of [dynamic_with_gradio.py] *)
Definition globals (input_text : string) : gmap string gval :=
  <["__builtins__" := BuiltinsDict safe_builtins]>
  (<["__name__" := Val (VStr "__main__")]>
  (<["__package__" := Val VNone]>
  (<["__spec__" := Val VNone]>
  (<["INPUT_TEXT" := Val (VStr input_text)]> ∅)))).

(** [exec] handed the source text compiles it first. *)
Definition exec_source (code : Code) (g : gmap string gval) : behaviour :=
  match compile code with
  | Compiled => exec code g
  | CompileSyntaxError se =>
      {| printed := ""; final := g; raised := Some (exn_of_syntax_error se) |}
  | CompileRaised e => {| printed := ""; final := g; raised := Some e |}
  end.

(** [v.strip()]: the method of [str] for a string, an [AttributeError] for
    [None] and for an integer, and whatever the object makes of it
    otherwise. *)
Definition method_strip (v : value) : py_result value :=
  match v with
  | VStr s => Return (VStr (PyStr.strip s))
  | VNone | VInt _ =>
      Raise (Exn AttributeError
               ("'" +:+ type_name v +:+ "' object has no attribute 'strip'")
               None)
  | _ => call_strip v
  end.

(** the handler of the function-only mode *)
Definition function_only_error {A} (e : exn) : py_result A :=
  if caught_by_except_Exception e then
    Raise (Exn RuntimeError
             ("Execution error in function-only mode:" +:+ PyStr.nl
              +:+ format_exc e) (Some e))
  else Raise e.

(** the handler around [exec(compiled, g, g)]; [out] is the text captured
    so far. The message is an f-string with [e] in it: when [str(e)] raises,
    that error leaves the handler instead of the [RuntimeError]. *)
Definition whole_script_error {A} (e : exn) (out : string) : py_result A :=
  if caught_by_except_Exception e then
    match exn_str e with
    | Return text =>
        Raise (Exn RuntimeError
                 ("Error while executing generated code: " +:+ text
                  +:+ PyStr.nl +:+ PyStr.nl +:+ "Captured stdout:"
                  +:+ PyStr.nl +:+ out) (Some e))
    | Raise e' => Raise e'
    end
  else Raise e.

(** The result is a string in whole-script mode; in function-only mode it is
    what [.strip()] of the value of [run_once] returns. *)
Definition run_generated_adk (code : Code) (input_text : string)
    (function_only : bool) : py_result value :=
  let g := globals input_text in
  if function_only then
    let b := exec_source code g in
    match raised b with
    | Some e => function_only_error e
    | None =>
        let run_once := final b !! "run_once" in
        if callable run_once then
          match call_run_once run_once input_text with
          | Return v =>
              match method_strip v with
              | Return r => Return r
              | Raise e => function_only_error e
              end
          | Raise e => function_only_error e
          end
        else
          function_only_error
            (Exn RuntimeError
               "Generated code did not define async run_once(user_text: str) -> str"
               None)
    end
  else
    match compile code with
    | CompileSyntaxError se => Raise (syntax_error_report (source code) se)
    | CompileRaised e => Raise e
    | Compiled =>
        let b := exec code g in
        match raised b with
        | Some e => whole_script_error e (printed b)
        | None => Return (VStr (PyStr.strip (printed b)))
        end
    end.


End Executor.

(** ** The front end: [generate_and_run], the whole function *)

(** [s.lower()] on the code points below 256 *)
Definition lower_char (c : ascii) : ascii :=
  let n := PyStr.code c in
  if ((65 <=? n) && (n <=? 90) || (192 <=? n) && (n <=? 214)
      || (216 <=? n) && (n <=? 222))%N
  then ascii_of_N (n + 32) else c.

Fixpoint str_lower (s : string) : string :=
  match s with
  | "" => ""
  | String c s' => String (lower_char c) (str_lower s')
  end.

(** The two characters backslash and [n], which the error text of the
    front end has where a line end was meant. *)
Definition BACKSLASH_N : string := String (ascii_of_N 92) "n".

Definition TIMEOUT_HINT : string :=
  BACKSLASH_N +:+ BACKSLASH_N
  +:+ "Hint: Increase the request timeout, reduce model load, or check network/firewall/VPN.".

Definition err_hint (msg : string) : string :=
  if PyStr.contains "Timeout" msg || PyStr.contains "timed out" (str_lower msg)
  then TIMEOUT_HINT else "".

(** The four outputs: the generated script, the result, whether the error
    box is shown ([gr.update(visible=...)]) and the error text. *)
Record ui_output := {
  gen_code : string;
  final_result : value;
  err_box_visible : bool;
  err_md : string
}.

Section GenerateAndRun.
Variable litellm_completion : nat → py_result response.
Variables ADK_SYSTEM_PROMPT ADK_SYSTEM_PROMPT_FUNCTION_ONLY : string.
Variable key_in_environ : bool.
Variable builtins : gset string.
Variable compile : string → compiled.
Variable exec : string → gmap string gval → behaviour.
Variable call_run_once : option gval → string → py_result value.
Variable call_strip : value → py_result value.
(** [traceback.format_exc(limit=6)] in the executor and
    [traceback.format_exc()] in the front end *)
Variables format_exc_6 format_exc : exn → string.

(** the handler [except Exception as e] of [generate_and_run];
    [generated_code_for_error] is the script generated so far. The handler
    forms [str(e)] first; when that raises, the error leaves the handler
    and the function. *)
Definition generate_and_run_error (generated_code_for_error : string) (e : exn)
  : py_result ui_output :=
  if caught_by_except_Exception e then
    match exn_str e with
    | Return text =>
        Return {| gen_code := generated_code_for_error;
                  final_result := VStr "";
                  err_box_visible := true;
                  err_md := text +:+ err_hint text +:+ BACKSLASH_N
                            +:+ BACKSLASH_N +:+ format_exc e |}
    | Raise e' => Raise e'
    end
  else Raise e.

Definition generate_and_run (api_key model user_intent input_text : string)
    (function_only : bool) (req_timeout : option Q) (retries : option Z)
    (w : world) : py_result ui_output * world :=
  let (code, w') :=
    generate_and_run_code litellm_completion ADK_SYSTEM_PROMPT
      ADK_SYSTEM_PROMPT_FUNCTION_ONLY key_in_environ api_key model user_intent
      input_text function_only req_timeout retries w in
  match code with
  | Raise e => (generate_and_run_error "" e, w')
  | Return code =>
      match run_generated_adk builtins (λ c : string, c) compile exec
              call_run_once call_strip format_exc_6 code
              (PyStr.strip input_text) function_only with
      | Return result =>
          (Return {| gen_code := code; final_result := result;
                     err_box_visible := false; err_md := "" |}, w')
      | Raise e => (generate_and_run_error code e, w')
      end
  end.
End GenerateAndRun.

(** ** A fragment of generated programs

    To have scripts that can be traced by hand, the interpreter is written
    out for straight-line programs of four kinds of statements, on the
    programs of that shape that are well formed. Names are looked up in the
    globals and then in the dictionary bound to [__builtins__]; an [import]
    statement calls what [__import__] is bound to in that dictionary. There
    is no [try] statement in the fragment: an exception ends the run. *)

Module Fragment.

(** the exception classes of [SAFE_BUILTIN_NAMES] *)
Inductive builtin_exception :=
| EBaseException | EException | ERuntimeError | EValueError | ETypeError
| ENameError | EImportError | EKeyError | EIndexError.

Definition exception_name (c : builtin_exception) : string :=
  match c with
  | EBaseException => "BaseException" | EException => "Exception"
  | ERuntimeError => "RuntimeError" | EValueError => "ValueError"
  | ETypeError => "TypeError" | ENameError => "NameError"
  | EImportError => "ImportError" | EKeyError => "KeyError"
  | EIndexError => "IndexError"
  end.

Definition exception_class (c : builtin_exception) : exc_class :=
  match c with
  | EBaseException => BaseException | EException => Exception
  | ERuntimeError => RuntimeError | EValueError => ValueError
  | ETypeError => TypeError | ENameError => NameError
  | EImportError => ImportError | EKeyError => KeyError
  | EIndexError => IndexError
  end.

(** [str(c('msg'))]: the argument, and for a [KeyError] the [repr] of the
    argument, which for the texts of the fragment is the text in single
    quotes *)
Definition exception_text (c : builtin_exception) (msg : string) : string :=
  match c with
  | EKeyError => "'" +:+ msg +:+ "'"
  | _ => msg
  end.

Inductive stmt :=
| Print (text : string)                       (* [print('text')] *)
| Name (name : string)                        (* the expression [name] *)
| Import (module : string)                    (* [import module] *)
| RaiseNew (c : builtin_exception) (msg : string).  (* [raise c('msg')] *)

Definition render_stmt (s : stmt) : string :=
  match s with
  | Print t => "print('" +:+ t +:+ "')"
  | Name n => n
  | Import m => "import " +:+ m
  | RaiseNew c m => "raise " +:+ exception_name c +:+ "('" +:+ m +:+ "')"
  end.

Definition render (p : list stmt) : string :=
  PyStr.join PyStr.nl (map render_stmt p).

(** *** The programs of the fragment *)

(** The texts between the quotes: printable ASCII without the quote and
    the backslash, so that the literal stands for the text itself. *)
Definition is_literal_char (c : ascii) : bool :=
  let n := PyStr.code c in
  ((32 <=? n) && (n <=? 126) && negb (n =? 39) && negb (n =? 92))%N.

Definition is_identifier_start (c : ascii) : bool :=
  let n := PyStr.code c in
  ((65 <=? n) && (n <=? 90) || (n =? 95) || (97 <=? n) && (n <=? 122))%N.

Definition is_identifier_char (c : ascii) : bool :=
  let n := PyStr.code c in
  is_identifier_start c || ((48 <=? n) && (n <=? 57))%N.

(** an identifier in ASCII *)
Definition is_identifier (s : string) : bool :=
  match s with
  | String c r => is_identifier_start c && PyStr.all_chars is_identifier_char r
  | "" => false
  end.

(** The names that are evaluated without a lookup: the three keyword
    constants and [__debug__]. *)
Definition CONSTANTS : list string := ["None"; "True"; "False"; "__debug__"].

(** the other keywords, which are no expressions and no module names *)
Definition KEYWORDS : list string :=
  [ "and"; "as"; "assert"; "async"; "await"; "break"; "class"; "continue";
    "def"; "del"; "elif"; "else"; "except"; "finally"; "for"; "from";
    "global"; "if"; "import"; "in"; "is"; "lambda"; "nonlocal"; "not"; "or";
    "pass"; "raise"; "return"; "try"; "while"; "with"; "yield" ].

Definition is_in (s : string) (l : list string) : bool :=
  existsb (λ k, bool_decide (s = k)) l.

(** the parts of a dotted name *)
Fixpoint split_dots (s : string) : list string :=
  match s with
  | "" => [""]
  | String c s' =>
      if bool_decide (c = "."%char) then "" :: split_dots s'
      else match split_dots s' with
           | h :: t => String c h :: t
           | [] => [String c ""]
           end
  end.

Definition well_formed_stmt (s : stmt) : bool :=
  match s with
  | Print t => PyStr.all_chars is_literal_char t
  | Name n => is_identifier n && negb (is_in n KEYWORDS)
  | Import m =>
      forallb (λ part, is_identifier part && negb (is_in part KEYWORDS)
                       && negb (is_in part CONSTANTS))
        (split_dots m)
  | RaiseNew _ msg => PyStr.all_chars is_literal_char msg
  end.

Definition well_formed (p : list stmt) : bool := forallb well_formed_stmt p.

(** *** What the statements do *)

(** name lookup of code run by [exec(code, g, g)] *)
Definition resolve (g : gmap string gval) (name : string) : option gval :=
  match g !! name with
  | Some v => Some v
  | None =>
      match g !! "__builtins__" with
      | Some (BuiltinsDict d) => Val <$> d !! name
      | _ => None
      end
  end.

(** what the [import] statement calls *)
Definition import_function (g : gmap string gval) : option value :=
  match g !! "__builtins__" with
  | Some (BuiltinsDict d) => d !! "__import__"
  | _ => None
  end.

Definition name_error (name : string) : exn :=
  Exn NameError ("name '" +:+ name +:+ "' is not defined") None.

(** The names of the sandbox are bound to the builtin of the same name, to
    a global or to a module, so that what is found under the name of a
    function and is not that function is an object that cannot be
    called. *)
Definition not_callable (v : gval) : exn :=
  Exn TypeError "object is not callable" None.

(** the name an [import] statement binds: the top-level package *)
Definition top_level (module : string) : string :=
  match PyStr.partition "." module with
  | Some (a, _) => a
  | None => module
  end.

Section Interpreter.
(** [real_import m] is the exception the interpreter's own
    [__import__] raises for [m], if any. *)
Variable real_import : string → option exn.

Definition stop (out : string) (g : gmap string gval) (e : exn) : behaviour :=
  {| printed := out; final := g; raised := Some e |}.

Definition go_on (out : string) (g : gmap string gval) : behaviour :=
  {| printed := out; final := g; raised := None |}.

(** the builtin function or class of the name [n] is what [n] resolves to *)
Definition resolves_to_builtin (g : gmap string gval) (n : string) : bool :=
  match resolve g n with
  | Some (Val (VHost h)) => bool_decide (h = n)
  | _ => false
  end.

Definition exec_stmt (s : stmt) (out : string) (g : gmap string gval)
  : behaviour :=
  match s with
  | Print t =>
      match resolve g "print" with
      | Some v =>
          if resolves_to_builtin g "print"
          then go_on (out +:+ t +:+ PyStr.nl) g
          else stop out g (not_callable v)
      | None => stop out g (name_error "print")
      end
  | Name n =>
      if is_in n CONSTANTS then go_on out g
      else match resolve g n with
           | Some _ => go_on out g
           | None => stop out g (name_error n)
           end
  | Import m =>
      match import_function g with
      | Some VSafeImport =>
          match _safe_import (λ name (_ : unit), real_import name) m () with
          | Rejected e => stop out g e
          | Delegated (Some e) => stop out g e
          | Delegated None =>
              go_on out (<[top_level m := Val (VObject "module" false)]> g)
          end
      | Some v => stop out g (not_callable (Val v))
      | None => stop out g (Exn ImportError "__import__ not found" None)
      end
  | RaiseNew c msg =>
      match resolve g (exception_name c) with
      | Some v =>
          if resolves_to_builtin g (exception_name c)
          then stop out g (Exn (exception_class c) (exception_text c msg) None)
          else stop out g (not_callable v)
      | None => stop out g (name_error (exception_name c))
      end
  end.

Fixpoint exec_program (p : list stmt) (out : string)
    (g : gmap string gval) : behaviour :=
  match p with
  | [] => go_on out g
  | s :: rest =>
      let b := exec_stmt s out g in
      match raised b with
      | Some _ => b
      | None => exec_program rest (printed b) (final b)
      end
  end.

Variable builtins : gset string.
Variable format_exc : exn → string.

(** [run_generated_adk] on a program of the fragment, which compiles and
    defines no [run_once]; there is no result for a program that is not
    well formed. *)
Definition run (p : list stmt) (input_text : string) (function_only : bool)
  : option (py_result value) :=
  if well_formed p then
    Some (run_generated_adk builtins render (λ _, Compiled)
            (λ p g, exec_program p "" g) (λ _ _, Return VNone)
            (λ v, Return v) format_exc p input_text function_only)
  else None.

End Interpreter.

End Fragment.

(** the names of the module [builtins] that matter here *)
Definition cpython_builtins : gset string :=
  SAFE_BUILTIN_NAMES ∪ {[ "open"; "eval"; "exec"; "compile"; "input";
                          "__import__"; "globals"; "locals"; "vars"; "dir" ]}.

(** ** The words of the specification, and fixtures *)

(** What the specification calls the allow-list: a module name that starts
    with one of the prefixes, or is one of the standard modules. *)
Definition allow_listed (name : string) : Prop :=
  (∃ p rest, p ∈ ALLOWED_MODULE_PREFIXES ∧ name = p +:+ rest)
  ∨ name ∈ ALLOWED_STD_MODULES.

(** The log the wrapper leaves when every attempt fails: [todo] calls of
    [litellm.completion], the first of them being attempt number [attempt],
    and a sleep after each but the last. *)
Definition sleep_events (attempt : Z) : list event :=
  match backoff attempt with Some d => [Sleep d] | None => [] end.

Fixpoint failing_log (ev : event) (attempt : Z) (todo : nat) : list event :=
  match todo with
  | O => []
  | S O => [ev]
  | S todo' => ev :: sleep_events attempt ++ failing_log ev (attempt + 1) todo'
  end.

(** Fixtures for the retry scenario: a provider that times out twice and
    then answers, one that never answers, and a fresh world. *)
Definition timeout_error (n : nat) : exn :=
  Exn (OtherClass "Timeout" true) ("request " +:+ pretty n +:+ " timed out") None.

Definition ok_response : response := {| content := Some "ok" |}.

(** A stand-in for [traceback.format_exc]: the last line of a traceback
    without the name of the class. *)
Definition traceback_text (e : exn) : string :=
  match exn_str e with
  | Return text => text
  | Raise _ => "<exception str() failed>"
  end.

Definition flaky_provider (n : nat) : py_result response :=
  match n with
  | 0 | 1 => Raise (timeout_error n)
  | _ => Return ok_response
  end.

Definition dead_provider (n : nat) : py_result response :=
  Raise (timeout_error n).

Definition fresh_world : world :=
  {| litellm_api_key := None; calls := 0; log := [] |}.

(** [sub in s], as a proposition *)
Definition occurs_in (sub s : string) : Prop := ∃ a b, s = a +:+ sub +:+ b.

(** Fixtures for the generators: a source text that meets the contract, and
    a completion that carries it in a fenced block. *)
Definition contract_source : string :=
  PyStr.join PyStr.nl
    [ "from google.adk.agents import Agent";
      "from google.adk.runners import Runner";
      "from google.adk.sessions import InMemorySessionService";
      "from google.genai import types";
      "import asyncio";
      "";
      "async def run_once(user_text: str) -> str:";
      "    return user_text" ].

Definition fenced (src : string) : response :=
  {| content := Some ("Here you are:" +:+ PyStr.nl +:+ FENCE +:+ "python"
                      +:+ PyStr.nl +:+ src +:+ PyStr.nl +:+ FENCE +:+ PyStr.nl) |}.

(** a string of white space only *)
Definition blank (s : string) : Prop := PyStr.all_chars PyStr.is_space s = true.

(** a string that does not begin with white space *)
Definition starts_solid (s : string) : Prop :=
  match s with String c _ => PyStr.is_space c = false | "" => True end.




(** Fixtures for the patcher. [script_with_later_print] is the script the
    prompt asks for, with the final [print] at top level after the body of
    [run_once]; [script_without_later_print] is the same text without that
    line. *)
Definition contract_imports : list string :=
  [ "from google.adk.agents import Agent";
    "from google.adk.runners import Runner";
    "from google.adk.sessions import InMemorySessionService";
    "from google.genai import types";
    "import asyncio";
    "" ].

Definition script_with_later_print : string :=
  PyStr.join PyStr.nl
    (contract_imports ++
     [ "async def run_once(user_text: str) -> str:";
       "    return user_text";
       "";
       "print(asyncio.run(run_once(INPUT_TEXT)))" ]).

Definition script_without_later_print : string :=
  PyStr.join PyStr.nl
    (contract_imports ++
     [ "async def run_once(user_text: str) -> str:";
       "    return user_text";
       "" ]).

(** [script_with_guard] has the final [print] under the [__main__] guard,
    as the prompt asks. *)
Definition script_with_guard : string :=
  PyStr.join PyStr.nl
    (contract_imports ++
     [ "async def run_once(user_text: str) -> str:";
       "    return user_text";
       "";
       MAIN_GUARD;
       "    print(asyncio.run(run_once(INPUT_TEXT)))" ]).

Definition script_with_empty_guard : string :=
  PyStr.join PyStr.nl
    (contract_imports ++
     [ "async def run_once(user_text: str) -> str:";
       "    return user_text";
       "";
       MAIN_GUARD ]).

(** [script_referencing_constants] uses the three constants as the prompt
    says and defines none of them; [script_with_literals] does not mention
    them at all. *)
Definition script_referencing_constants : string :=
  PyStr.join PyStr.nl
    (contract_imports ++
     [ "async def run_once(user_text: str) -> str:";
       "    session_service = InMemorySessionService()";
       "    await session_service.create_session(app_name=APP_NAME, user_id=USER_ID, session_id=SESSION_ID)";
       "    return user_text" ]).

Definition script_with_literals : string :=
  PyStr.join PyStr.nl
    (contract_imports ++
     [ "async def run_once(user_text: str) -> str:";
       "    session_service = InMemorySessionService()";
       "    await session_service.create_session(app_name='dyn_adk', user_id='u1', session_id='s1')";
       "    return user_text" ]).




(** ** Further words for the properties *)

(** Lines as a text has them between its line feeds: no line has a
    line-boundary character in it, and the last line is not empty. *)
Definition plain_lines (lines : list string) : Prop :=
  Forall (λ l, PyStr.all_chars (λ c, negb (PyStr.is_linebreak c)) l = true)
    lines
  ∧ last lines ≠ Some "".

(** a text without a back quote *)
Definition no_backquote (s : string) : Prop :=
  PyStr.all_chars (λ c, negb (bool_decide (c = "`"%char))) s = true.

(** The log of [k] attempts that failed and were retried, the first of them
    being attempt number [attempt]: each a call followed by its sleep. *)
Fixpoint retried_log (ev : event) (attempt : Z) (k : nat) : list event :=
  match k with
  | O => []
  | S k' => ev :: sleep_events attempt ++ retried_log ev (attempt + 1) k'
  end.

(** the lines of the excerpt of [syntax_error_report] *)
Definition snippet_lines (lines : list string) (ln : Z) : list string :=
  map (λ i : Z,
         (if bool_decide (i + 1 = ln)%Z then ">> " else "   ")
         +:+ pad4 (i + 1) +:+ ": "
         +:+ default "" (lines !! Z.to_nat i))
      (seqZ (Z.max 0 (ln - 4))
         (Z.min (Z.of_nat (length lines)) (ln + 3) - Z.max 0 (ln - 4))).

(** There is no word character right before the end of [a]. *)
Definition boundary_after (a : string) : Prop :=
  match PyStr.unsnoc a with
  | Some (_, c) => PyStr.is_word c = false
  | None => True
  end.

(** There is no word character at the start of [b]. *)
Definition boundary_before (b : string) : Prop :=
  match b with String c _ => PyStr.is_word c = false | "" => True end.

(** What the searches with a word boundary know after the text [a]: whether a
    word character comes right before, [pw] being what they knew at the start
    of [a]. *)
Definition word_before (pw : bool) (a : string) : bool :=
  match PyStr.unsnoc a with
  | Some (_, c) => PyStr.is_word c
  | None => pw
  end.

(** A provider that is interrupted at once: the exception does not derive
    from [Exception]. *)
Definition interrupted_provider (n : nat) : py_result response :=
  Raise (Exn (OtherClass "KeyboardInterrupt" false) "" None).

(** * Properties *)

(** ** Strings *)

Lemma startswith_spec s p :
  PyStr.startswith s p = true ↔ ∃ rest, s = p +:+ rest.
Proof.
  revert s. induction p as [|a p IH]; intros s; simpl.
  - split; [intros _; exists s; reflexivity | done].
  - destruct s as [|b s]; simpl.
    + split; [done | by intros [? ?]].
    + rewrite andb_true_iff, bool_decide_eq_true, IH. split.
      * intros [-> [r ->]]. by exists r.
      * intros [r Hr]. injection Hr as -> ->. eauto.
Qed.

Lemma startswith_app p rest : PyStr.startswith (p +:+ rest) p = true.
Proof. apply startswith_spec. eauto. Qed.

Lemma contains_spec sub s :
  PyStr.contains sub s = true ↔ ∃ a b, s = a +:+ sub +:+ b.
Proof.
  induction s as [|c s IH].
  - simpl. rewrite orb_false_r, startswith_spec. split.
    + intros [r Hr]. by exists "", r.
    + intros (a & b & Hab). destruct a; [by exists b|done].
  - cbn [PyStr.contains]. rewrite orb_true_iff, startswith_spec, IH. split.
    + intros [[r Hr] | (a & b & ->)].
      * by exists "", r.
      * by exists (String c a), b.
    + intros (a & b & Hab). destruct a as [|c' a].
      * left. by exists b.
      * right. injection Hab as -> ->. by exists a, b.
Qed.

(** Append on strings. *)
Lemma str_app_nil_l s : "" +:+ s = s.
Proof. reflexivity. Qed.

Lemma str_app_cons c a b : String c a +:+ b = String c (a +:+ b).
Proof. reflexivity. Qed.

Lemma str_app_nil_r s : s +:+ "" = s.
Proof. induction s as [|c s IH]; [done|]. by rewrite str_app_cons, IH. Qed.

Lemma str_app_assoc a b c : (a +:+ b) +:+ c = a +:+ b +:+ c.
Proof. induction a as [|x a IH]; [done|]. by rewrite !str_app_cons, IH. Qed.

Lemma str_app_length a b :
  String.length (a +:+ b) = String.length a + String.length b.
Proof. induction a as [|x a IH]; [done|]. rewrite str_app_cons. cbn. by rewrite IH. Qed.

Ltac str_norm :=
  repeat first [ rewrite str_app_assoc | rewrite str_app_cons
               | rewrite str_app_nil_l | rewrite str_app_nil_r ].

Ltac str_norm_hyp H :=
  repeat first [ rewrite str_app_assoc in H | rewrite str_app_cons in H
               | rewrite str_app_nil_l in H | rewrite str_app_nil_r in H ].

Lemma drop_length_app p s : PyStr.drop (String.length p) (p +:+ s) = s.
Proof. induction p as [|c p IH]; [done|]. by rewrite str_app_cons. Qed.

Lemma after_app p s : PyStr.after p (p +:+ s) = Some s.
Proof. unfold PyStr.after. by rewrite startswith_app, drop_length_app. Qed.

Lemma after_Some p s r : PyStr.after p s = Some r → s = p +:+ r.
Proof.
  unfold PyStr.after. destruct (PyStr.startswith s p) eqn:E; [|done].
  apply startswith_spec in E as [r' ->]. rewrite drop_length_app. by intros [= ->].
Qed.

Lemma all_chars_app f a b :
  PyStr.all_chars f (a +:+ b) = PyStr.all_chars f a && PyStr.all_chars f b.
Proof.
  induction a as [|c a IH]; [done|]. rewrite str_app_cons. cbn.
  by rewrite IH, andb_assoc.
Qed.

Lemma lstrip_solid s : starts_solid s → PyStr.lstrip s = s.
Proof. destruct s as [|c s]; [done|]. cbn. by intros ->. Qed.

Lemma lstrip_blank_app ws s : blank ws → PyStr.lstrip (ws +:+ s) = PyStr.lstrip s.
Proof.
  unfold blank. induction ws as [|c ws IH]; [done|]. cbn.
  intros [Hc Hws]%andb_true_iff. rewrite str_app_cons. cbn. rewrite Hc. auto.
Qed.

Lemma lstrip_starts_solid s : starts_solid (PyStr.lstrip s).
Proof.
  induction s as [|c s IH]; [done|]. cbn.
  destruct (PyStr.is_space c) eqn:E; [done|]. exact E.
Qed.

Lemma leading_space_blank s : blank (PyStr.leading_space s).
Proof.
  unfold blank. induction s as [|c s IH]; [done|]. cbn.
  destruct (PyStr.is_space c) eqn:E; [|done]. cbn. by rewrite E.
Qed.

Lemma leading_space_lstrip s : s = PyStr.leading_space s +:+ PyStr.lstrip s.
Proof.
  induction s as [|c s IH]; [done|]. cbn.
  destruct (PyStr.is_space c); [|done]. by rewrite str_app_cons, <- IH.
Qed.





Lemma blank_nil_inv c s : blank (String c s) → PyStr.is_space c = true ∧ blank s.
Proof. unfold blank. cbn. by intros ?%andb_true_iff. Qed.

Lemma rstrip_blank t : blank t → PyStr.rstrip t = "".
Proof.
  induction t as [|c t IH]; [done|]. intros [Hc Ht]%blank_nil_inv.
  cbn. by rewrite (IH Ht), Hc.
Qed.

Lemma rstrip_app_blank a t : blank t → PyStr.rstrip (a +:+ t) = PyStr.rstrip a.
Proof.
  intros Ht. induction a as [|x a IH]; [by apply rstrip_blank|].
  rewrite str_app_cons. cbn. by rewrite IH.
Qed.

Lemma rstrip_ends_solid a c :
  PyStr.is_space c = false →
  PyStr.rstrip (a +:+ String c "") = a +:+ String c "".
Proof.
  intros Hc. induction a as [|x a IH];
    [rewrite str_app_nil_l; cbn; by rewrite Hc|].
  rewrite str_app_cons. cbn. rewrite IH. by destruct a.
Qed.

Lemma rstrip_decomp s : ∃ t, blank t ∧ s = PyStr.rstrip s +:+ t.
Proof.
  induction s as [|c s (t & Ht & IH)]; [by exists ""|]. cbn.
  destruct (PyStr.rstrip s) as [|d r] eqn:E.
  - destruct (PyStr.is_space c) eqn:Hc.
    + exists (String c t). split; [|by rewrite IH].
      unfold blank. cbn. by rewrite Hc.
    + exists t. split; [done|]. by rewrite IH.
  - exists t. split; [done|]. by rewrite IH at 1.
Qed.

Lemma unsnoc_app a c : PyStr.unsnoc (a +:+ String c "") = Some (a, c).
Proof.
  induction a as [|x a IH]; [done|]. rewrite str_app_cons. cbn. by rewrite IH.
Qed.


(** ** The embedding at work *)

Example patch_ex1 :
  _patch_generated_code
    (PyStr.join PyStr.nl
       ["async def run_once(user_text: str) -> str:";
        "    print('x')";
        "    await session_service.create_session(app_name='a')  ";
        "    return user_text";
        "if name == 'main':"])
  = PyStr.join PyStr.nl
       ["APP_NAME = 'dyn_adk'"; "USER_ID = 'user-1'"; "SESSION_ID = 'sess-1'"; "";
        "async def run_once(user_text: str) -> str:";
        "    _maybe = session_service.create_session(app_name='a')";
        "    if hasattr(_maybe, '__await__'):";
        "        await _maybe";
        "    return user_text";
        MAIN_GUARD;
        "    print(asyncio.run(run_once(INPUT_TEXT)))"; ""].
Proof. vm_compute. reflexivity. Qed.

Example extract_code_ex :
  extract_code (content (fenced contract_source)) = Return contract_source.
Proof. vm_compute. reflexivity. Qed.

Example fragment_ex1 :
  Fragment.run (λ _, None) cpython_builtins traceback_text
    [Fragment.Print "hi"; Fragment.Import "socket"] "x" false
  = Some (Raise (Exn RuntimeError
      ("Error while executing generated code: Import of 'socket' is not allowed in this runner."
       +:+ PyStr.nl +:+ PyStr.nl +:+ "Captured stdout:" +:+ PyStr.nl +:+ "hi" +:+ PyStr.nl)
      (Some (import_refused "socket")))).
Proof. vm_compute. reflexivity. Qed.

(** ** The import hook *)

Lemma import_allowed_spec name :
  import_allowed name = true ↔ allow_listed name.
Proof.
  unfold import_allowed, allow_listed, startswith_any.
  rewrite orb_true_iff, bool_decide_eq_true, existsb_exists.
  split; intros [H | H]; auto; left.
  - destruct H as (p & Hin & Hp). apply startswith_spec in Hp as [r ->].
    exists p, r. split; [by apply list_elem_of_In | done].
  - destruct H as (p & r & Hin & ->). exists p.
    split; [by apply list_elem_of_In | apply startswith_app].
Qed.

Section SafeImportProperties.
Context {Args M : Type}.
Variable real_import : string → Args → M.

(** C1. The hook raises exactly for the names outside the allow-list: a
    name that starts with one of the prefixes [google], [asyncio],
    [typing] or is one of the standard modules is handed to the real
    import with the arguments unchanged; every other name raises the
    [ImportError] of the hook; and the hook raises if and only if the
    name is not allow-listed. *)
Theorem safe_import_rejects_iff_not_allow_listed (name : string) (args : Args) :
  (allow_listed name →
     _safe_import real_import name args = Delegated (real_import name args))
  ∧ (¬ allow_listed name →
     _safe_import real_import name args = Rejected (import_refused name)
     ∧ exn_class (import_refused name) = ImportError)
  ∧ ((∃ e, _safe_import real_import name args = Rejected e)
     ↔ ¬ allow_listed name).
Proof.
  unfold _safe_import. rewrite <- import_allowed_spec.
  destruct (import_allowed name).
  - split; [done|]. split; [intros H; by destruct H|].
    split; [intros [e He]; discriminate | intros H; by destruct H].
  - split; [done|]. split; [done|]. split; [done | eauto].
Qed.

(** C9. The test on the prefixes is a test on characters: whatever follows
    [google], [asyncio] or [typing] in the name, the hook hands the call
    to the real import and does not raise. [google_evil] and [asyncio2]
    are such names. *)
Theorem safe_import_accepts_any_prefixed_name (rest : string) (args : Args) :
  (∀ p, p ∈ ALLOWED_MODULE_PREFIXES →
     _safe_import real_import (p +:+ rest) args
     = Delegated (real_import (p +:+ rest) args))
  ∧ _safe_import real_import "google_evil" args
    = Delegated (real_import "google_evil" args)
  ∧ _safe_import real_import "asyncio2" args
    = Delegated (real_import "asyncio2" args).
Proof.
  split; [|done].
  intros p Hp. unfold _safe_import.
  assert (import_allowed (p +:+ rest) = true) as ->; [|done].
  apply import_allowed_spec. left. eauto.
Qed.
End SafeImportProperties.

(** The hook on a networking module, on a module of the framework and on
    a standard module. *)
Lemma safe_import_rejects_iff_not_allow_listed_witness :
  _safe_import (λ name (_ : unit), name) "socket" ()
  = Rejected (import_refused "socket")
  ∧ _safe_import (λ name (_ : unit), name) "google.adk.agents" ()
    = Delegated "google.adk.agents"
  ∧ _safe_import (λ name (_ : unit), name) "json" () = Delegated "json".
Proof.
  split; [|split].
  - apply (safe_import_rejects_iff_not_allow_listed (λ name _, name) "socket" ()).
    intros H%import_allowed_spec. vm_compute in H. discriminate H.
  - apply (safe_import_rejects_iff_not_allow_listed (λ name _, name)
             "google.adk.agents" ()).
    apply import_allowed_spec. reflexivity.
  - apply (safe_import_rejects_iff_not_allow_listed (λ name _, name) "json" ()).
    apply import_allowed_spec. reflexivity.
Defined.

(** ** The generation wrapper *)

Lemma backoff_doubles (attempt : Z) (d : Q) :
  (0 ≤ attempt)%Z → (attempt + 1 < 1024)%Z → backoff attempt = Some d →
  ∃ d', backoff (attempt + 1) = Some d' ∧ (d' == 2 * d)%Q.
Proof.
  intros H0 H1. unfold backoff.
  destruct (Z.ltb_spec attempt 1024); [|lia].
  destruct (Z.ltb_spec (attempt + 1) 1024); [|lia].
  intros [= <-]. eexists. split; [done|].
  rewrite Z.pow_add_r by lia. rewrite inject_Z_mult.
  change (inject_Z (2 ^ 1)) with 2%Q. ring.
Qed.

(** The effect of the two kinds of events on the world. *)
Lemma calls_sleep_backoff attempt w :
  calls (sleep_backoff attempt w) = calls w.
Proof. unfold sleep_backoff. by destruct (backoff attempt). Qed.

Lemma log_sleep_backoff attempt w :
  log (sleep_backoff attempt w) = log w ++ sleep_events attempt.
Proof.
  unfold sleep_backoff, sleep_events.
  destruct (backoff attempt); cbn; [done | by rewrite app_nil_r].
Qed.

Lemma calls_record_completion ev w :
  calls (record_completion ev w) = S (calls w).
Proof. done. Qed.

Lemma log_record_completion ev w :
  log (record_completion ev w) = log w ++ [ev].
Proof. done. Qed.

Lemma calls_set_api_key k w : calls (set_api_key k w) = calls w.
Proof. by destruct k. Qed.

Lemma log_set_api_key k w : log (set_api_key k w) = log w.
Proof. by destruct k. Qed.

Create Rewrite HintDb world.
#[local] Hint Rewrite calls_sleep_backoff log_sleep_backoff
  calls_record_completion log_record_completion
  calls_set_api_key log_set_api_key : world.

Section LlmCompletionProperties.
Variable litellm_completion : nat → py_result response.

Lemma attempts_step_fail todo attempt ev max_retries w e :
  litellm_completion (calls w) = Raise e →
  caught_by_except_Exception e = true →
  (attempt < max_retries - 1)%Z →
  attempts litellm_completion (S todo) attempt ev max_retries w
  = attempts litellm_completion todo (attempt + 1) ev max_retries
      (sleep_backoff attempt (record_completion ev w)).
Proof.
  intros Hc Hx Hlt. cbn [attempts]. rewrite Hc, Hx.
  by destruct (Z.ltb_spec attempt (max_retries - 1)); [|lia].
Qed.

Lemma attempts_step_ok todo attempt ev max_retries w r :
  litellm_completion (calls w) = Return r →
  attempts litellm_completion (S todo) attempt ev max_retries w
  = (Return (Some r), record_completion ev w).
Proof. intros Hc. cbn [attempts]. by rewrite Hc. Qed.

Lemma attempts_zero attempt ev max_retries w :
  attempts litellm_completion 0 attempt ev max_retries w = (Return None, w).
Proof. done. Qed.

(** Every attempt fails with an error that [except Exception] catches:
    the loop makes all its attempts and raises the error of the last. *)
Lemma attempts_all_fail ev max_retries :
  ∀ todo (errs : nat → exn) attempt w,
    (Z.of_nat (S todo) + attempt = max_retries)%Z →
    (∀ k, k ≤ todo →
       litellm_completion (calls w + k) = Raise (errs k)
       ∧ caught_by_except_Exception (errs k) = true) →
    ∃ w', attempts litellm_completion (S todo) attempt ev max_retries w
          = (Raise (errs todo), w')
      ∧ calls w' = calls w + S todo
      ∧ log w' = log w ++ failing_log ev attempt (S todo)
      ∧ litellm_api_key w' = litellm_api_key w.
Proof.
  induction todo as [|todo IH]; intros errs attempt w Hm Hall.
  - destruct (Hall 0 ltac:(lia)) as [Hc Hx]. rewrite Nat.add_0_r in Hc.
    cbn [attempts]. rewrite Hc, Hx.
    destruct (Z.ltb_spec attempt (max_retries - 1)); [lia|].
    eexists. split; [done|]. cbn. split; [lia|done].
  - destruct (Hall 0 ltac:(lia)) as [Hc Hx]. rewrite Nat.add_0_r in Hc.
    remember (S todo) as n eqn:Hn. cbn [attempts]. rewrite Hc, Hx. subst n.
    destruct (Z.ltb_spec attempt (max_retries - 1)); [|lia].
    destruct (IH (λ k, errs (S k)) (attempt + 1)%Z
                (sleep_backoff attempt (record_completion ev w)))
      as (w' & Hrun & Hcalls & Hlog & Hkey).
    { lia. }
    { intros k Hk. destruct (Hall (S k) ltac:(lia)) as [Hc' Hx'].
      replace (calls (sleep_backoff attempt (record_completion ev w)) + k)
        with (calls w + S k); [done|].
      unfold sleep_backoff. destruct (backoff attempt); cbn; lia. }
    exists w'. split; [|split; [|split]].
    + etrans; [exact Hrun|]. done.
    + rewrite Hcalls. unfold sleep_backoff. destruct (backoff attempt); cbn; lia.
    + rewrite Hlog. change (failing_log ev attempt (S (S todo)))
        with (ev :: sleep_events attempt ++ failing_log ev (attempt + 1) (S todo)).
      unfold sleep_backoff, sleep_events.
      destruct (backoff attempt); cbn; by rewrite <- !(assoc_L (++)).
    + rewrite Hkey. unfold sleep_backoff. by destruct (backoff attempt).
Qed.
End LlmCompletionProperties.

Section LlmCompletionRetry.
Variable litellm_completion : nat → py_result response.
Variables (model api_key : string) (messages : list (string * string)).
Variables (timeout_s max_retries : Z) (w : world).

Let ev := Completion model messages 0 timeout_s timeout_s.

Lemma llm_completion_third_attempt e1 e2 r :
  (3 ≤ max_retries)%Z →
  litellm_completion (calls w) = Raise e1 →
  caught_by_except_Exception e1 = true →
  litellm_completion (calls w + 1) = Raise e2 →
  caught_by_except_Exception e2 = true →
  litellm_completion (calls w + 2) = Return r →
  ∃ w' d0 d1,
    _llm_completion litellm_completion model api_key messages timeout_s
      max_retries w = (Return (Some r), w')
    ∧ calls w' = calls w + 3
    ∧ log w' = log w ++ [ev; Sleep d0; ev; Sleep d1; ev]
    ∧ (d0 == 3 # 4)%Q ∧ (d1 == 3 # 2)%Q.
Proof.
  intros Hm H1 Hx1 H2 Hx2 H3. unfold _llm_completion.
  destruct (Z.to_nat max_retries) as [|[|[|n]]] eqn:E; [lia..|].
  replace (calls w + 1) with (S (calls w)) in H2 by lia.
  replace (calls w + 2) with (S (S (calls w))) in H3 by lia.
  rewrite (attempts_step_fail _ _ _ _ _ _ e1);
    [|by autorewrite with world|done|lia].
  rewrite (attempts_step_fail _ _ _ _ _ _ e2);
    [|by autorewrite with world|done|lia].
  rewrite (attempts_step_ok _ _ _ _ _ _ r); [|by autorewrite with world].
  eexists _, ((3 # 4) * inject_Z (2 ^ 0))%Q, ((3 # 4) * inject_Z (2 ^ 1))%Q.
  split; [done|]. autorewrite with world.
  split; [lia|]. split; [|done].
  by rewrite <- !(assoc_L (++)).
Qed.

Lemma llm_completion_all_fail (errs : nat → exn) :
  (1 ≤ max_retries)%Z →
  (∀ k, (Z.of_nat k < max_retries)%Z →
     litellm_completion (calls w + k) = Raise (errs k)
     ∧ caught_by_except_Exception (errs k) = true) →
  ∃ w',
    _llm_completion litellm_completion model api_key messages timeout_s
      max_retries w = (Raise (errs (Z.to_nat max_retries - 1)), w')
    ∧ calls w' = calls w + Z.to_nat max_retries
    ∧ log w' = log w ++ failing_log ev 0 (Z.to_nat max_retries).
Proof.
  intros Hm Hall. unfold _llm_completion. fold ev.
  pose proof (calls_set_api_key api_key w) as Hc.
  pose proof (log_set_api_key api_key w) as Hl.
  destruct (Z.to_nat max_retries) as [|n] eqn:E; [lia|].
  destruct (attempts_all_fail litellm_completion ev max_retries n errs 0
              (set_api_key api_key w)) as (w' & Hrun & Hcalls & Hlog & _).
  { lia. }
  { intros k Hk. rewrite Hc. apply Hall. lia. }
  exists w'. rewrite Hrun, Hcalls, Hlog, Hc, Hl.
  replace (S n - 1) with n by lia. done.
Qed.
End LlmCompletionRetry.

(** C5, as the code has it. With [max_retries] at least 3, a call that
    fails on the first two attempts and succeeds on the third returns the
    successful response, after sleeping 0.75 s and 1.5 s. With [max_retries]
    at least 1, a call that fails on every attempt is tried exactly
    [max_retries] times and no more, with a sleep of [0.75 * 2 ** attempt]
    seconds after each attempt but the last, and the error of the last
    attempt is raised. The delay doubles from one attempt to the next. *)
Theorem llm_completion_retry_policy
    (litellm_completion : nat → py_result response)
    (model api_key : string) (messages : list (string * string))
    (timeout_s max_retries : Z) (w : world) :
  let ev := Completion model messages 0 timeout_s timeout_s in
  let run := _llm_completion litellm_completion model api_key messages
               timeout_s max_retries w in
  (∀ e1 e2 r,
     (3 ≤ max_retries)%Z →
     litellm_completion (calls w) = Raise e1 →
     caught_by_except_Exception e1 = true →
     litellm_completion (calls w + 1) = Raise e2 →
     caught_by_except_Exception e2 = true →
     litellm_completion (calls w + 2) = Return r →
     ∃ w' d0 d1,
       run = (Return (Some r), w')
       ∧ calls w' = calls w + 3
       ∧ log w' = log w ++ [ev; Sleep d0; ev; Sleep d1; ev]
       ∧ (d0 == 3 # 4)%Q ∧ (d1 == 3 # 2)%Q)
  ∧ (∀ errs : nat → exn,
     (1 ≤ max_retries)%Z →
     (∀ k, (Z.of_nat k < max_retries)%Z →
        litellm_completion (calls w + k) = Raise (errs k)
        ∧ caught_by_except_Exception (errs k) = true) →
     ∃ w',
       run = (Raise (errs (Z.to_nat max_retries - 1)), w')
       ∧ (Z.of_nat (calls w' - calls w) ≤ max_retries)%Z
       ∧ calls w' = calls w + Z.to_nat max_retries
       ∧ log w' = log w ++ failing_log ev 0 (Z.to_nat max_retries))
  ∧ (∀ attempt d,
     (0 ≤ attempt)%Z → (attempt + 1 < 1024)%Z → backoff attempt = Some d →
     ∃ d', backoff (attempt + 1) = Some d' ∧ (d' == 2 * d)%Q).
Proof.
  intros ev run. split; [|split].
  - intros e1 e2 r. apply llm_completion_third_attempt.
  - intros errs Hm Hall.
    destruct (llm_completion_all_fail litellm_completion model api_key messages
                timeout_s max_retries w errs Hm Hall) as (w' & Hrun & Hc & Hl).
    exists w'. split; [done|]. split; [lia|]. done.
  - apply backoff_doubles.
Qed.

(** Three attempts against the provider that answers at the third call, and
    against the one that never answers. *)
Lemma llm_completion_retry_policy_witness :
  (∃ w' d0 d1,
     _llm_completion flaky_provider "m" "key" [] 60 3 fresh_world
     = (Return (Some ok_response), w')
     ∧ calls w' = 3
     ∧ log w' = [Completion "m" [] 0 60 60; Sleep d0; Completion "m" [] 0 60 60;
                 Sleep d1; Completion "m" [] 0 60 60]
     ∧ (d0 == 3 # 4)%Q ∧ (d1 == 3 # 2)%Q)
  ∧ (∃ w',
     _llm_completion dead_provider "m" "key" [] 60 3 fresh_world
     = (Raise (timeout_error 2), w')
     ∧ (Z.of_nat (calls w' - 0) ≤ 3)%Z
     ∧ calls w' = 3
     ∧ log w' = failing_log (Completion "m" [] 0 60 60) 0 3).
Proof.
  pose proof (llm_completion_retry_policy flaky_provider "m" "key" [] 60 3
                fresh_world) as [Ha _].
  pose proof (llm_completion_retry_policy dead_provider "m" "key" [] 60 3
                fresh_world) as (_ & Hb & _).
  split.
  - apply (Ha (timeout_error 0) (timeout_error 1) ok_response);
      [lia | reflexivity..].
  - apply (Hb timeout_error); [lia|]. intros k _. split; reflexivity.
Defined.

(** C5 as the specification states it does not hold: with the default
    [max_retries = 2] the call that would succeed on the third attempt is
    never tried a third time, and the second error is raised; and with
    [max_retries = 0] a call that always fails raises nothing. *)
Lemma llm_completion_two_retries_give_up :
  (fst (_llm_completion flaky_provider "m" "key" [] 60 2 fresh_world)
   = Raise (timeout_error 1)
   ∧ calls (snd (_llm_completion flaky_provider "m" "key" [] 60 2 fresh_world))
     = 2)
  ∧ fst (_llm_completion dead_provider "m" "key" [] 60 0 fresh_world)
    = Return None.
Proof. vm_compute. done. Qed.

(** C10. With [max_retries = 0] the wrapper calls [litellm.completion] not
    once, sleeps not once, and returns [None]; nothing is raised. The front
    end passes 0 down for a retry count of 0 or less: [generate_and_run]
    then gets [None] from the wrapper in either mode, without a call of the
    provider, and fails on [resp.choices]. *)
Theorem llm_completion_zero_retries_returns_None
    (litellm_completion : nat → py_result response)
    (model api_key : string) (messages : list (string * string))
    (timeout_s : Z) (w : world) (retries : Z) :
  let run := _llm_completion litellm_completion model api_key messages
               timeout_s 0 w in
  fst run = Return None
  ∧ calls (snd run) = calls w
  ∧ log (snd run) = log w
  ∧ generate_and_run_max_retries (Some 0%Z) = 0%Z
  ∧ generate_and_run_max_retries (Some (Z.min retries 0)) = 0%Z
  ∧ (∀ sys sys_fo key_in_environ user_intent input_text function_only req_timeout,
       is_empty (PyStr.strip user_intent) = false →
       is_empty (PyStr.strip input_text) = false →
       negb (is_empty api_key) || key_in_environ = true →
       generate_and_run_code litellm_completion sys sys_fo key_in_environ
         api_key model user_intent input_text function_only req_timeout
         (Some (Z.min retries 0)) w
       = (Raise (Exn AttributeError
                   "'NoneType' object has no attribute 'choices'" None),
          set_api_key (PyStr.strip api_key) w)).
Proof.
  intros run. subst run. unfold _llm_completion.
  change (Z.to_nat 0) with 0%nat. rewrite attempts_zero.
  cbn [fst snd]. autorewrite with world.
  assert (generate_and_run_max_retries (Some (Z.min retries 0)) = 0%Z) as Hz
    by (unfold generate_and_run_max_retries; lia).
  repeat split; try done.
  intros sys sys_fo key_in_environ user_intent input_text function_only
    req_timeout Hi Ht Hk.
  unfold generate_and_run_code. rewrite Hi, Ht, Hk, Hz. cbn [negb].
  unfold generate_adk_code, _generate_adk_code_function_only, _llm_completion.
  change (Z.to_nat 0) with 0%nat. rewrite !attempts_zero.
  by destruct function_only.
Qed.

(** The front end with the slider of the retries at 0. *)
Lemma llm_completion_zero_retries_returns_None_witness :
  generate_and_run_code dead_provider "rules" "rules" false
    "key" "gemini/gemini-2.5-flash" "You are an expert Mathematician"
    "what is a matrix?" true (Some 60%Q) (Some (Z.min 0 0)) fresh_world
  = (Raise (Exn AttributeError
              "'NoneType' object has no attribute 'choices'" None),
     set_api_key (PyStr.strip "key") fresh_world).
Proof.
  pose proof (llm_completion_zero_retries_returns_None dead_provider
                "gemini/gemini-2.5-flash" "key" [] 60 fresh_world 0)
    as (_ & _ & _ & _ & _ & H).
  apply H; reflexivity.
Defined.

(** ** The contract check of the generators *)

Lemma has_required_spec code :
  has_required code = true ↔ ∀ s, s ∈ required → occurs_in s code.
Proof.
  unfold has_required. rewrite forallb_forall. split.
  - intros H s Hs. apply contains_spec, H. by apply list_elem_of_In.
  - intros H s Hs. apply contains_spec, H. by apply list_elem_of_In.
Qed.

Lemma validate_and_patch_accepts code out :
  validate_and_patch code = Return out →
  has_required code = true ∧ out = _patch_generated_code code.
Proof.
  unfold validate_and_patch. destruct (has_required code); [|done].
  by intros [= <-].
Qed.

Lemma validate_function_only_accepts code out :
  validate_function_only code = Return out →
  has_required code = true ∧ out = code.
Proof.
  unfold validate_function_only. destruct (has_required code); [|done].
  destruct (violates_function_only code); [done|]. by intros [= <-].
Qed.

Section GeneratorProperties.
Variable litellm_completion : nat → py_result response.
Variables ADK_SYSTEM_PROMPT ADK_SYSTEM_PROMPT_FUNCTION_ONLY : string.
Variables (model api_key user_intent : string) (timeout_s max_retries : Z).
Variable w : world.

Let completion :=
  (_llm_completion litellm_completion model api_key
     [("system", ADK_SYSTEM_PROMPT); ("user", build_user_prompt user_intent)]
     timeout_s max_retries w).1.
Let completion_function_only :=
  (_llm_completion litellm_completion model api_key
     [("system", ADK_SYSTEM_PROMPT_FUNCTION_ONLY);
      ("user", build_user_prompt user_intent)]
     timeout_s max_retries w).1.
Let generated :=
  (generate_adk_code litellm_completion ADK_SYSTEM_PROMPT model api_key
     user_intent timeout_s max_retries w).1.
Let generated_function_only :=
  (_generate_adk_code_function_only litellm_completion
     ADK_SYSTEM_PROMPT_FUNCTION_ONLY model api_key user_intent timeout_s
     max_retries w).1.

(** C3. Whenever [generate_adk_code] returns, the source it took out of
    the completion contains each of the five required texts, and what it
    returns is the patch pass applied to that source. When one of the
    five is absent from the extracted source, it raises the [ValueError]
    of the check and the patch pass is not reached. The function-only
    generator has the same check, and the generator of [dynamic_agent.py]
    has it for its own five texts. *)
Theorem generate_adk_code_checks_contract :
  length required = 5
  ∧ (∀ out, generated = Return out →
       ∃ resp code,
         completion = Return (Some resp)
         ∧ extract_code (content resp) = Return code
         ∧ (∀ s, s ∈ required → occurs_in s code)
         ∧ out = _patch_generated_code code)
  ∧ (∀ resp code s,
       completion = Return (Some resp) →
       extract_code (content resp) = Return code →
       s ∈ required → ¬ occurs_in s code →
       generated
       = Raise (Exn ValueError "Generated code missing required ADK pieces." None))
  ∧ (∀ out, generated_function_only = Return out →
       ∃ resp,
         completion_function_only = Return (Some resp)
         ∧ extract_code (content resp) = Return out
         ∧ (∀ s, s ∈ required → occurs_in s out))
  ∧ (∀ resp code s,
       completion_function_only = Return (Some resp) →
       extract_code (content resp) = Return code →
       s ∈ required → ¬ occurs_in s code →
       ∃ msg, generated_function_only = Raise (Exn ValueError msg None))
  ∧ (length cli_required = 5
     ∧ ∀ out,
         (cli_generate_adk_code litellm_completion ADK_SYSTEM_PROMPT model
            api_key user_intent w).1 = Return out →
         ∀ s, s ∈ cli_required → occurs_in s out).
Proof.
  subst completion completion_function_only generated generated_function_only.
  unfold generate_adk_code, _generate_adk_code_function_only.
  split; [done|].
  destruct (_llm_completion litellm_completion model api_key
              [("system", ADK_SYSTEM_PROMPT); _] timeout_s max_retries w)
    as [r1 w1].
  destruct (_llm_completion litellm_completion model api_key
              [("system", ADK_SYSTEM_PROMPT_FUNCTION_ONLY); _] timeout_s
              max_retries w) as [r2 w2].
  cbn [fst]. repeat split.
  - intros out H. destruct r1 as [[resp|]|]; [|done..]. cbn in H.
    destruct (extract_code (content resp)) as [code|] eqn:E; [|done].
    cbn in H. apply validate_and_patch_accepts in H as [Hreq ->].
    exists resp, code. by rewrite <- has_required_spec.
  - intros resp code s -> E Hs Hno. cbn. rewrite E. cbn.
    unfold validate_and_patch.
    destruct (has_required code) eqn:Hreq; [|done].
    destruct Hno. by apply has_required_spec.
  - intros out H. destruct r2 as [[resp|]|]; [|done..]. cbn in H.
    destruct (extract_code (content resp)) as [code|] eqn:E; [|done].
    cbn in H. apply validate_function_only_accepts in H as [Hreq ->].
    exists resp. by rewrite <- has_required_spec.
  - intros resp code s -> E Hs Hno. cbn. rewrite E. cbn.
    unfold validate_function_only.
    destruct (has_required code) eqn:Hreq; [|eauto].
    destruct Hno. by apply has_required_spec.
  - intros out H s Hs. unfold cli_generate_adk_code in H. cbn [fst] in H.
    destruct (litellm_completion _) as [resp|]; [|done]. cbn in H.
    unfold cli_validate in H.
    destruct (cli_CODE_FENCE_search _) as [g|]; [|done].
    destruct (forallb _ cli_required) eqn:Hall; [|done].
    injection H as <-. rewrite forallb_forall in Hall.
    apply contains_spec, Hall. by apply list_elem_of_In.
Qed.
End GeneratorProperties.

(** A completion that carries [contract_source] in a fenced block is
    accepted. *)
Lemma generate_adk_code_checks_contract_witness :
  ∃ resp code,
    (_llm_completion (λ _, Return (fenced contract_source)) "m" ""
       [("system", "rules"); ("user", build_user_prompt "echo the input")]
       60 2 fresh_world).1 = Return (Some resp)
    ∧ extract_code (content resp) = Return code
    ∧ (∀ s, s ∈ required → occurs_in s code)
    ∧ _patch_generated_code contract_source = _patch_generated_code code.
Proof.
  pose proof (generate_adk_code_checks_contract
                (λ _, Return (fenced contract_source)) "rules" "rules"
                "m" "" "echo the input" 60 2 fresh_world) as (_ & H & _).
  apply H. vm_compute. reflexivity.
Defined.


(** ** Lines *)

Lemma rev_app_rev_app a b c :
  String.rev_app (String.rev_app a b) c = String.rev_app b (a +:+ c).
Proof.
  revert b c. induction a as [|x a IH]; intros b c; [done|].
  cbn [String.rev_app]. by rewrite IH.
Qed.

Lemma rev_rev s : String.rev (String.rev_app s "") = s.
Proof.
  unfold String.rev. rewrite rev_app_rev_app. cbn. apply str_app_nil_r.
Qed.

(** Reading the characters of a line: they are collected, in reverse. *)
Lemma splitlines_go_line l cur rest :
  PyStr.all_chars (λ c, negb (PyStr.is_linebreak c)) l = true →
  PyStr.splitlines_go false cur (l +:+ rest)
  = PyStr.splitlines_go false (String.rev_app l cur) rest.
Proof.
  revert cur. induction l as [|x l IH]; intros cur; [done|]. cbn.
  intros [Hx Hl]%andb_true_iff. apply negb_true_iff in Hx.
  rewrite str_app_cons. cbn. rewrite Hx. by apply IH.
Qed.

(** [splitlines] undoes [join] on lines that hold no line boundary, the
    last of which is not empty; a line feed at the end of the text opens no
    further line. *)
Lemma splitlines_join lines :
  plain_lines lines →
  PyStr.splitlines (PyStr.join PyStr.nl lines) = lines
  ∧ (lines ≠ [] →
     PyStr.splitlines (PyStr.join PyStr.nl lines +:+ PyStr.nl) = lines).
Proof.
  unfold plain_lines, PyStr.splitlines. intros [Hall Hlast].
  induction Hall as [|l lines Hl Hall IH]; [done|].
  assert (∀ rest, PyStr.splitlines_go false "" (l +:+ PyStr.nl +:+ rest)
                  = l :: PyStr.splitlines_go false "" rest) as Hline.
  { intros rest. rewrite (splitlines_go_line l "" _ Hl).
    change (PyStr.nl +:+ rest) with (String PyStr.LF rest).
    cbn [PyStr.splitlines_go andb].
    change (PyStr.is_linebreak PyStr.LF) with true.
    change (bool_decide (PyStr.LF = PyStr.CR)) with false.
    cbn iota. by rewrite (rev_rev l). }
  destruct lines as [|l2 lines].
  - cbn [PyStr.join]. split.
    + pose proof (splitlines_go_line l "" "" Hl) as Hgo.
      rewrite str_app_nil_r in Hgo. rewrite Hgo.
      cbn [PyStr.splitlines_go].
      destruct (String.rev_app l "") as [|c cur] eqn:E.
      * assert (l = "") as ->; [|by destruct Hlast].
        rewrite <- (rev_rev l). by rewrite E.
      * rewrite <- E. by rewrite (rev_rev l).
    + intros _. rewrite <- (str_app_nil_r PyStr.nl). by rewrite Hline.
  - assert (last (l2 :: lines) ≠ Some "") as Hlast' by done.
    destruct (IH Hlast') as [IH1 IH2].
    change (PyStr.join PyStr.nl (l :: l2 :: lines))
      with (l +:+ PyStr.nl +:+ PyStr.join PyStr.nl (l2 :: lines)).
    split.
    + by rewrite Hline, IH1.
    + intros _. rewrite !str_app_assoc, Hline. by rewrite IH2.
Qed.

(** ** Patch step 2: the session-creation call *)







(** ** Patch step 1: the print statements *)

(** Once the header of [run_once] has been seen, only the header of another
    function at the same or a smaller indentation ends the body. Without
    one, every pure print line that follows is dropped, however it is
    indented. *)
Lemma strip_prints_until_next_def run_indent lines :
  Forall (λ l, is_def_header l = false) lines →
  strip_prints true run_indent lines
  = List.filter (λ l, negb (is_pure_print l)) lines.
Proof.
  induction 1 as [|l lines Hl _ IH]; [done|].
  cbn. rewrite Hl. cbn. rewrite IH. by destruct (is_pure_print l).
Qed.

(** Before the header of [run_once] nothing is dropped. *)
Lemma strip_prints_before_header lines rest :
  Forall (λ l, is_run_once_header l = false) lines →
  strip_prints false None (lines ++ rest)
  = lines ++ strip_prints false None rest.
Proof.
  induction 1 as [|l lines Hl _ IH]; [done|].
  cbn. rewrite Hl. cbn. by rewrite IH.
Qed.

(** C4 fails on the code. [script_with_later_print] has all five required
    texts and a [print] at top level after the body of [run_once]; step 1
    removes that line, and the whole patch pass returns the script without
    it (and without the line end that step 2 drops at the very end). In
    [script_with_guard] the [print] under the [__main__] guard is removed
    by step 1 as well, and step 5 then appends its default body to the
    empty guard. In general, after the header of [run_once] and as long as
    no other function header follows, every pure print line is dropped. *)
Theorem strip_prints_drops_print_after_run_once :
  (has_required script_with_later_print = true
   ∧ strip_prints_in_run_once script_with_later_print
     = script_without_later_print
   ∧ _patch_generated_code script_with_later_print +:+ PyStr.nl
     = script_without_later_print
   ∧ PyStr.contains "print(" script_with_later_print = true
   ∧ PyStr.contains "print(" (_patch_generated_code script_with_later_print)
     = false)
  ∧ (strip_prints_in_run_once script_with_guard = script_with_empty_guard
     ∧ _patch_generated_code script_with_guard
       = script_with_empty_guard +:+ DEFAULT_BODY)
  ∧ (∀ run_indent lines,
       Forall (λ l, is_def_header l = false) lines →
       strip_prints true run_indent lines
       = List.filter (λ l, negb (is_pure_print l)) lines).
Proof.
  split; [vm_compute; done|]. split; [vm_compute; done|].
  apply strip_prints_until_next_def.
Qed.

(** ** Patch step 3: the constants *)

Lemma need_constants_spec patched :
  need_constants patched = true ↔
  occurs_in "session_service.create_session" patched
  ∧ ∃ k, k ∈ CONSTANT_NAMES ∧ ¬ occurs_in k patched.
Proof.
  unfold need_constants, occurs_in.
  rewrite andb_true_iff, contains_spec, negb_true_iff.
  rewrite <- not_true_iff_false, forallb_forall.
  split; intros [H1 H2]; (split; [done|]).
  - destruct (PyStr.contains "APP_NAME" patched) eqn:Ha;
      [|exists "APP_NAME"; split; [by repeat constructor|rewrite <- contains_spec; congruence]].
    destruct (PyStr.contains "USER_ID" patched) eqn:Hu;
      [|exists "USER_ID"; split; [by repeat constructor|rewrite <- contains_spec; congruence]].
    destruct (PyStr.contains "SESSION_ID" patched) eqn:Hs;
      [|exists "SESSION_ID"; split; [by repeat constructor|rewrite <- contains_spec; congruence]].
    destruct H2. by intros k [<-|[<-|[<-|[]]]].
  - destruct H2 as (k & Hk & Hno). intros Hall. apply Hno, contains_spec, Hall.
    by apply list_elem_of_In.
Qed.

(** The header is put in front exactly when the call occurs in the text and
    one of the three names occurs nowhere in it. *)
Lemma inject_constants_spec patched :
  (need_constants patched = true → inject_constants patched = header +:+ patched)
  ∧ (need_constants patched = false → inject_constants patched = patched).
Proof. unfold inject_constants. by destruct (need_constants patched). Qed.

(** C7 fails on the code. [script_referencing_constants] has the five
    required texts, uses [APP_NAME], [USER_ID] and [SESSION_ID] in the call
    the prompt asks for and assigns none of them, and yet the patch pass
    puts no header in front: the test is whether the names occur in the
    text, and the uses are occurrences. This holds of every text in which
    the three names occur. The other way round, [script_with_literals]
    mentions none of the three names and gets the header. *)
Theorem inject_constants_skips_referenced_constants :
  (has_required script_referencing_constants = true
   ∧ forallb (λ k, PyStr.contains k script_referencing_constants) CONSTANT_NAMES
     = true
   ∧ existsb (λ k, PyStr.contains (k +:+ " =") script_referencing_constants)
       CONSTANT_NAMES = false
   ∧ PyStr.startswith (_patch_generated_code script_referencing_constants) header
     = false
   ∧ PyStr.contains header (_patch_generated_code script_referencing_constants)
     = false)
  ∧ (existsb (λ k, PyStr.contains k script_with_literals) CONSTANT_NAMES = false
     ∧ PyStr.startswith (_patch_generated_code script_with_literals) header
       = true)
  ∧ (∀ patched,
       (∀ k, k ∈ CONSTANT_NAMES → occurs_in k patched) →
       inject_constants patched = patched).
Proof.
  split; [vm_compute; done|]. split; [vm_compute; done|].
  intros patched Hall. apply inject_constants_spec.
  apply not_true_iff_false. intros (_ & k & Hk & Hno)%need_constants_spec.
  by apply Hno, Hall.
Qed.

(** ** The namespace of the sandbox *)





Lemma startswith_drop s p :
  PyStr.startswith s p = true → s = p +:+ PyStr.drop (String.length p) s.
Proof. intros [r ->]%startswith_spec. by rewrite drop_length_app. Qed.

Lemma partition_Some sep s a b :
  PyStr.partition sep s = Some (a, b) → s = a +:+ sep +:+ b.
Proof.
  revert a. induction s as [|c s IH]; intros a; cbn.
  - destruct (PyStr.startswith "" sep) eqn:E; [|done].
    intros [= <- <-]. by apply startswith_drop.
  - destruct (PyStr.startswith (String c s) sep) eqn:E.
    + intros [= <- <-]. by apply startswith_drop.
    + destruct (PyStr.partition sep s) as [[a' b']|]; [|done].
      intros [= <- <-]. by rewrite (IH a' eq_refl).
Qed.

(** ** The executor and the code it runs *)

Section ExecutorProperties.
Variable builtins : gset string.
Context {Code : Type}.
Variable source : Code → string.
Variable compile : Code → compiled.
Variable exec : Code → gmap string gval → behaviour.
Variable call_run_once : option gval → string → py_result value.
Variable call_strip : value → py_result value.
Variable format_exc : exn → string.

Local Abbreviation run :=
  (run_generated_adk builtins source compile exec call_run_once call_strip
     format_exc).


End ExecutorProperties.




(** * Further properties of the code *)

(** ** The generation wrapper, for any provider *)

Section LlmCompletionFurther.
Variable litellm_completion : nat → py_result response.

(** After [k] failures that are retried the loop goes on with what is left
    of it. *)
Lemma attempts_retried ev max_retries :
  ∀ k todo (errs : nat → exn) attempt w,
    (attempt + Z.of_nat k ≤ max_retries - 1)%Z →
    (∀ i, i < k →
       litellm_completion (calls w + i) = Raise (errs i)
       ∧ caught_by_except_Exception (errs i) = true) →
    ∃ wk,
      attempts litellm_completion (k + todo) attempt ev max_retries w
      = attempts litellm_completion todo (attempt + Z.of_nat k) ev
          max_retries wk
      ∧ calls wk = calls w + k
      ∧ log wk = log w ++ retried_log ev attempt k
      ∧ litellm_api_key wk = litellm_api_key w.
Proof.
  induction k as [|k IH]; intros todo errs attempt w Hle Hall.
  - exists w. cbn. rewrite Z.add_0_r, Nat.add_0_r, app_nil_r. done.
  - destruct (Hall 0 ltac:(lia)) as [Hc Hx]. rewrite Nat.add_0_r in Hc.
    destruct (IH todo (λ i, errs (S i)) (attempt + 1)%Z
                (sleep_backoff attempt (record_completion ev w)))
      as (wk & Hrun & Hcalls & Hlog & Hkey).
    { lia. }
    { intros i Hi. autorewrite with world.
      replace (S (calls w) + i) with (calls w + S i) by lia.
      apply Hall. lia. }
    exists wk. split; [|split; [|split]].
    + change (S k + todo) with (S (k + todo)).
      rewrite (attempts_step_fail _ _ _ _ _ _ _ Hc Hx) by lia.
      rewrite Hrun. f_equal. lia.
    + rewrite Hcalls. autorewrite with world. lia.
    + rewrite Hlog. autorewrite with world. cbn [retried_log].
      by rewrite <- !(assoc_L (++)).
    + rewrite Hkey. unfold sleep_backoff. by destruct (backoff attempt).
Qed.

(** Whatever the provider does, the loop calls it at most [todo] times, only
    adds to the log, and leaves [litellm.api_key] alone. *)
Lemma attempts_bounded ev max_retries :
  ∀ todo attempt w,
    let w' := (attempts litellm_completion todo attempt ev max_retries w).2 in
    calls w ≤ calls w' ≤ calls w + todo
    ∧ (∃ l, log w' = log w ++ l)
    ∧ litellm_api_key w' = litellm_api_key w.
Proof.
  induction todo as [|todo IH]; intros attempt w; cbn.
  - split; [lia|]. split; [|done]. exists []. by rewrite app_nil_r.
  - destruct (litellm_completion (calls w)) as [r|e]; cbn.
    + split; [lia|]. split; [|done]. by exists [ev].
    + destruct (caught_by_except_Exception e); cbn;
        [|split; [lia|]; split; [|done]; by exists [ev]].
      destruct (attempt <? max_retries - 1)%Z; cbn;
        [|split; [lia|]; split; [|done]; by exists [ev]].
      specialize (IH (attempt + 1)%Z
                    (sleep_backoff attempt (record_completion ev w))).
      cbn in IH. destruct IH as (Hc & [l Hl] & Hk).
      autorewrite with world in Hc, Hl. split; [lia|]. split.
      * exists ([ev] ++ sleep_events attempt ++ l). rewrite Hl.
        by rewrite <- !(assoc_L (++)).
      * rewrite Hk. unfold sleep_backoff. by destruct (backoff attempt).
Qed.
End LlmCompletionFurther.

(** X1. The wrapper returns the first successful response: when the first
    [k] calls fail with errors that derive from [Exception], [k] is less
    than [max_retries] and the next call succeeds, the wrapper returns that
    response after exactly [k + 1] calls, having slept once after each
    failure. *)
Theorem llm_completion_returns_first_success
    (litellm_completion : nat → py_result response)
    (model api_key : string) (messages : list (string * string))
    (timeout_s max_retries : Z) (w : world)
    (k : nat) (errs : nat → exn) (r : response) :
  (Z.of_nat k < max_retries)%Z →
  (∀ i, i < k →
     litellm_completion (calls w + i) = Raise (errs i)
     ∧ caught_by_except_Exception (errs i) = true) →
  litellm_completion (calls w + k) = Return r →
  ∃ w',
    _llm_completion litellm_completion model api_key messages timeout_s
      max_retries w = (Return (Some r), w')
    ∧ calls w' = calls w + k + 1
    ∧ log w' = log w
               ++ retried_log (Completion model messages 0 timeout_s timeout_s)
                    0 k
               ++ [Completion model messages 0 timeout_s timeout_s].
Proof.
  intros Hk Hall Hr. unfold _llm_completion.
  set (ev := Completion model messages 0 timeout_s timeout_s).
  replace (Z.to_nat max_retries) with (k + S (Z.to_nat max_retries - k - 1))
    by lia.
  destruct (attempts_retried litellm_completion ev max_retries k
              (S (Z.to_nat max_retries - k - 1)) errs 0
              (set_api_key api_key w)) as (wk & Hrun & Hc & Hl & _).
  { lia. }
  { intros i Hi. autorewrite with world. by apply Hall. }
  autorewrite with world in Hc, Hl.
  rewrite Hrun, (attempts_step_ok _ _ _ _ _ _ r) by (by rewrite Hc).
  eexists. split; [done|]. autorewrite with world. rewrite Hc, Hl.
  split; [lia|]. by rewrite <- !(assoc_L (++)).
Qed.

(** Five attempts allowed, the answer comes at the third. *)
Lemma llm_completion_returns_first_success_witness :
  ∃ w',
    _llm_completion flaky_provider "m" "key" [] 60 5 fresh_world
    = (Return (Some ok_response), w')
    ∧ calls w' = 0 + 2 + 1
    ∧ log w' = [] ++ retried_log (Completion "m" [] 0 60 60) 0 2
               ++ [Completion "m" [] 0 60 60].
Proof.
  apply (llm_completion_returns_first_success flaky_provider "m" "key" [] 60 5
           fresh_world 2 timeout_error ok_response); [lia| |reflexivity].
  intros i Hi. destruct i as [|[|i]]; [split; reflexivity..|lia].
Defined.

(** X2. An error that does not derive from [Exception] is not retried: when
    it comes after [k] retried failures, it reaches the caller at once, after
    exactly [k + 1] calls and with no sleep after it, however many attempts
    are left. *)
Theorem llm_completion_does_not_retry_base_exceptions
    (litellm_completion : nat → py_result response)
    (model api_key : string) (messages : list (string * string))
    (timeout_s max_retries : Z) (w : world)
    (k : nat) (errs : nat → exn) (e : exn) :
  (Z.of_nat k < max_retries)%Z →
  (∀ i, i < k →
     litellm_completion (calls w + i) = Raise (errs i)
     ∧ caught_by_except_Exception (errs i) = true) →
  litellm_completion (calls w + k) = Raise e →
  caught_by_except_Exception e = false →
  ∃ w',
    _llm_completion litellm_completion model api_key messages timeout_s
      max_retries w = (Raise e, w')
    ∧ calls w' = calls w + k + 1
    ∧ log w' = log w
               ++ retried_log (Completion model messages 0 timeout_s timeout_s)
                    0 k
               ++ [Completion model messages 0 timeout_s timeout_s].
Proof.
  intros Hk Hall He Hx. unfold _llm_completion.
  set (ev := Completion model messages 0 timeout_s timeout_s).
  replace (Z.to_nat max_retries) with (k + S (Z.to_nat max_retries - k - 1))
    by lia.
  destruct (attempts_retried litellm_completion ev max_retries k
              (S (Z.to_nat max_retries - k - 1)) errs 0
              (set_api_key api_key w)) as (wk & Hrun & Hc & Hl & _).
  { lia. }
  { intros i Hi. autorewrite with world. by apply Hall. }
  autorewrite with world in Hc, Hl.
  rewrite Hrun. cbn [attempts]. rewrite Hc, He, Hx.
  eexists. split; [done|]. autorewrite with world. rewrite Hc, Hl.
  split; [lia|]. by rewrite <- !(assoc_L (++)).
Qed.

(** The provider is interrupted at the first of three attempts. *)
Lemma llm_completion_does_not_retry_base_exceptions_witness :
  ∃ w',
    _llm_completion interrupted_provider "m" "key" [] 60 3 fresh_world
    = (Raise (Exn (OtherClass "KeyboardInterrupt" false) "" None), w')
    ∧ calls w' = 0 + 0 + 1
    ∧ log w' = [] ++ retried_log (Completion "m" [] 0 60 60) 0 0
               ++ [Completion "m" [] 0 60 60].
Proof.
  apply (llm_completion_does_not_retry_base_exceptions interrupted_provider
           "m" "key" [] 60 3 fresh_world 0 timeout_error);
    [lia| |reflexivity|reflexivity].
  intros i Hi. lia.
Defined.

Lemma llm_completion_api_key
    (litellm_completion : nat → py_result response)
    (model api_key : string) (messages : list (string * string))
    (timeout_s max_retries : Z) (w : world) :
  litellm_api_key (_llm_completion litellm_completion model api_key messages
                     timeout_s max_retries w).2
  = (if is_empty api_key then litellm_api_key w else Some api_key).
Proof.
  unfold _llm_completion.
  destruct (attempts_bounded litellm_completion
              (Completion model messages 0 timeout_s timeout_s) max_retries
              (Z.to_nat max_retries) 0 (set_api_key api_key w))
    as (_ & _ & ->).
  by destruct api_key.
Qed.

(** X3. Whatever the provider does, one call of the wrapper calls it at most
    [max_retries] times (not at all when [max_retries] is negative), and
    only adds to the log of what happened before. *)
Theorem llm_completion_is_bounded
    (litellm_completion : nat → py_result response)
    (model api_key : string) (messages : list (string * string))
    (timeout_s max_retries : Z) (w : world) :
  let w' := (_llm_completion litellm_completion model api_key messages
               timeout_s max_retries w).2 in
  calls w ≤ calls w' ≤ calls w + Z.to_nat max_retries
  ∧ (∃ l, log w' = log w ++ l).
Proof.
  intros w'. subst w'. unfold _llm_completion.
  destruct (attempts_bounded litellm_completion
              (Completion model messages 0 timeout_s timeout_s) max_retries
              (Z.to_nat max_retries) 0 (set_api_key api_key w))
    as (Hc & Hl & _).
  autorewrite with world in Hc, Hl. by split.
Qed.

(** X4. The key of one request stays in force for the next: after a call
    with a key that is not empty, a call with the empty key leaves
    [litellm.api_key] at the key of the first call, whatever the provider
    did in between. *)
Theorem llm_completion_keeps_the_previous_key
    (litellm_completion : nat → py_result response)
    (model1 model2 key1 : string) (messages1 messages2 : list (string * string))
    (timeout1 timeout2 retries1 retries2 : Z) (w : world) :
  is_empty key1 = false →
  let w1 := (_llm_completion litellm_completion model1 key1 messages1
               timeout1 retries1 w).2 in
  let w2 := (_llm_completion litellm_completion model2 "" messages2
               timeout2 retries2 w1).2 in
  litellm_api_key w2 = Some key1.
Proof.
  intros Hk w1 w2. subst w1 w2.
  rewrite !llm_completion_api_key. cbn. by rewrite Hk.
Qed.

(** A request with a key, then one without. *)
Lemma llm_completion_keeps_the_previous_key_witness :
  litellm_api_key
    (_llm_completion flaky_provider "m" "" [] 60 2
       (_llm_completion flaky_provider "m" "secret" [] 60 2 fresh_world).2).2
  = Some "secret".
Proof.
  exact (llm_completion_keeps_the_previous_key flaky_provider "m" "m" "secret"
           [] [] 60 60 2 2 fresh_world eq_refl).
Defined.

(** ** Stripping *)

Lemma rstrip_ends s :
  PyStr.rstrip s = ""
  ∨ ∃ a c, PyStr.rstrip s = a +:+ String c "" ∧ PyStr.is_space c = false.
Proof.
  induction s as [|c s IH]; [by left|]. cbn.
  destruct (PyStr.rstrip s) as [|d r] eqn:E.
  - destruct (PyStr.is_space c) eqn:Hc; [by left|]. right. by exists "", c.
  - right. destruct IH as [|(a & c' & Ha & Hc')]; [done|].
    exists (String c a), c'. by rewrite Ha.
Qed.

Lemma rstrip_idem s : PyStr.rstrip (PyStr.rstrip s) = PyStr.rstrip s.
Proof.
  destruct (rstrip_ends s) as [-> | (a & c & -> & Hc)]; [done|].
  by apply rstrip_ends_solid.
Qed.

Lemma rstrip_starts_solid s : starts_solid s → starts_solid (PyStr.rstrip s).
Proof.
  destruct s as [|c s]; [done|]. cbn. intros Hc.
  destruct (PyStr.rstrip s); [by rewrite Hc|done].
Qed.

Lemma strip_idem s : PyStr.strip (PyStr.strip s) = PyStr.strip s.
Proof.
  unfold PyStr.strip.
  rewrite (lstrip_solid (PyStr.rstrip _))
    by apply rstrip_starts_solid, lstrip_starts_solid.
  apply rstrip_idem.
Qed.

Lemma strip_blank s : blank s → PyStr.strip s = "".
Proof.
  intros Hs. unfold PyStr.strip.
  replace (PyStr.lstrip s) with (PyStr.lstrip (s +:+ ""))
    by (by rewrite str_app_nil_r).
  by rewrite (lstrip_blank_app _ _ Hs).
Qed.

(** ** The executor: what it returns and what it raises *)

Section ExecutorFurther.
Variable builtins : gset string.
Context {Code : Type}.
Variable source : Code → string.
Variable compile : Code → compiled.
Variable exec : Code → gmap string gval → behaviour.
Variable call_run_once : option gval → string → py_result value.
Variable call_strip : value → py_result value.
Variable format_exc : exn → string.

Local Abbreviation run :=
  (run_generated_adk builtins source compile exec call_run_once call_strip
     format_exc).

Lemma function_only_error_raises {A} e :
  ∃ e', @function_only_error format_exc A e = Raise e'
        ∧ (caught_by_except_Exception e = false → e' = e)
        ∧ (caught_by_except_Exception e = true →
             e' = Exn RuntimeError
                    ("Execution error in function-only mode:" +:+ PyStr.nl
                     +:+ format_exc e) (Some e)).
Proof.
  unfold function_only_error.
  destruct (caught_by_except_Exception e); eexists; (split; [done|]);
    by split.
Qed.


(** X5. The executor returns only when the code compiled and ran to its end
    without an exception. In whole-script mode the result is the captured
    output without the white space at its ends. In function-only mode it is
    what [.strip()] of the value of the callable [run_once] returns, for a
    string the stripped string; what the code printed is not part of it,
    and the value is not checked to be a string. *)
Theorem run_generated_adk_returns_stripped_text
    (code : Code) (input_text : string) (function_only : bool) (r : value) :
  run code input_text function_only = Return r →
  let b := exec code (globals builtins input_text) in
  compile code = Compiled
  ∧ raised b = None
  ∧ if function_only then
      callable (final b !! "run_once") = true
      ∧ ∃ v, call_run_once (final b !! "run_once") input_text = Return v
             ∧ method_strip call_strip v = Return r
             ∧ (∀ s, v = VStr s →
                     r = VStr (PyStr.strip s)
                     ∧ PyStr.strip (PyStr.strip s) = PyStr.strip s)
    else ∃ t, r = VStr t ∧ t = PyStr.strip (printed b) ∧ PyStr.strip t = t.
Proof.
  intros H. cbv zeta. unfold run_generated_adk, exec_source in H.
  assert (∀ x, @function_only_error format_exc value x ≠ Return r) as Hfo.
  { intros x. by destruct (function_only_error_raises (A:=value) x)
      as (e' & -> & _). }
  destruct function_only.
  - destruct (compile code) eqn:Hc; [|by apply Hfo in H..].
    cbn [raised] in H.
    destruct (raised (exec code _)) as [e|] eqn:Hr; [by apply Hfo in H|].
    destruct (callable _) eqn:Hcall; [|by apply Hfo in H].
    destruct (call_run_once _ _) as [v|e] eqn:Hv; [|by apply Hfo in H].
    destruct (method_strip call_strip v) as [r'|e] eqn:Hs;
      [|by apply Hfo in H].
    injection H as <-. split; [done|]. split; [done|]. split; [done|].
    exists v. split; [done|]. split; [done|].
    intros txt ->. cbn in Hs. injection Hs as <-. split; [done|].
    apply strip_idem.
  - destruct (compile code) eqn:Hc; [|done..].
    destruct (raised (exec code _)) as [e|] eqn:Hr.
    { unfold whole_script_error in H.
      destruct (caught_by_except_Exception e); [|done].
      by destruct (exn_str e). }
    injection H as <-. split; [done|]. split; [done|].
    eexists. split; [done|]. split; [done|]. apply strip_idem.
Qed.

End ExecutorFurther.

(** In function-only mode: a script that prints and defines a [run_once]
    which returns its argument with blanks around it. *)
Lemma run_generated_adk_returns_stripped_text_witness :
  let exec := λ (_ : unit) (g : gmap string gval),
    {| printed := "noise";
       final := <["run_once" := Val (VObject "function" true)]> g;
       raised := None |} in
  let call_run_once := λ (_ : option gval) (x : string),
    @Return value (VStr ("  " +:+ x +:+ "  ")) in
  let b := exec () (globals cpython_builtins "hello") in
  Compiled = Compiled
  ∧ raised b = None
  ∧ callable (final b !! "run_once") = true
  ∧ ∃ v, call_run_once (final b !! "run_once") "hello" = Return v
         ∧ method_strip (λ v, Raise (Exn TypeError "" None)) v
           = Return (VStr "hello")
         ∧ (∀ s, v = VStr s →
                 VStr "hello" = VStr (PyStr.strip s)
                 ∧ PyStr.strip (PyStr.strip s) = PyStr.strip s).
Proof.
  exact (run_generated_adk_returns_stripped_text cpython_builtins
           (λ _ : unit, "") (λ _, Compiled)
           (λ _ g, {| printed := "noise";
                      final := <["run_once" := Val (VObject "function" true)]> g;
                      raised := None |})
           (λ _ x, Return (VStr ("  " +:+ x +:+ "  ")))
           (λ v, Raise (Exn TypeError "" None)) traceback_text
           () "hello" true (VStr "hello") eq_refl).
Defined.


(** X7. The report on code that does not compile shows an excerpt of the
    source: at most seven lines, each an existing line of the source within
    three lines of the reported one, with its number, and the reported line
    itself, marked, whenever the source has a line of that number. A missing
    line number, or the number 0, counts as line 1. *)
Theorem syntax_error_report_excerpt (src : string) (se : syntax_error) :
  let lines := PyStr.splitlines src in
  let ln := lineno_or_1 se in
  ∃ excerpt : list string,
    exn_str (syntax_error_report src se)
    = Return ("SyntaxError in generated code at line "
              +:+ str_opt_Z (lineno se)
              +:+ ", offset " +:+ str_opt_Z (offset se) +:+ ":" +:+ PyStr.nl
              +:+ default "" (text se) +:+ PyStr.nl +:+ PyStr.nl
              +:+ "Context:" +:+ PyStr.nl +:+ PyStr.join PyStr.nl excerpt)
    ∧ length excerpt ≤ 7
    ∧ (∀ entry, entry ∈ excerpt →
         ∃ (n : Z) (l : string),
           (1 ≤ n)%Z ∧ (ln - 3 ≤ n ≤ ln + 3)%Z
           ∧ lines !! Z.to_nat (n - 1) = Some l
           ∧ entry = (if bool_decide (n = ln) then ">> " else "   ")
                     +:+ pad4 n +:+ ": " +:+ l)
    ∧ (∀ l, (1 ≤ ln)%Z → lines !! Z.to_nat (ln - 1) = Some l →
         (">> " +:+ pad4 ln +:+ ": " +:+ l) ∈ excerpt).
Proof.
  intros lines ln. exists (snippet_lines lines ln).
  split; [reflexivity|]. unfold snippet_lines. split; [|split].
  - rewrite length_map, length_seqZ. lia.
  - intros entry [i [<- Hi%list_elem_of_In]]%list_elem_of_In%in_map_iff.
    apply elem_of_seqZ in Hi.
    destruct (lookup_lt_is_Some_2 lines (Z.to_nat i)) as [l Hl]; [lia|].
    exists (i + 1)%Z, l. split; [lia|]. split; [lia|].
    replace (i + 1 - 1)%Z with i by lia. split; [done|]. by rewrite Hl.
  - intros l Hln Hl. apply list_elem_of_In, in_map_iff.
    exists (ln - 1)%Z. split.
    + replace (ln - 1 + 1)%Z with ln by lia.
      rewrite bool_decide_eq_true_2 by done. by rewrite Hl.
    + apply list_elem_of_In, elem_of_seqZ.
      apply lookup_lt_Some in Hl. lia.
Qed.

(** ** The front end *)

Lemma rstrip_empty_blank s : PyStr.rstrip s = "" → blank s.
Proof.
  unfold blank. induction s as [|c s IH]; [done|]. cbn.
  destruct (PyStr.rstrip s); [|done].
  destruct (PyStr.is_space c); [|done]. intros _. by apply IH.
Qed.

Lemma lstrip_blank_blank s : blank (PyStr.lstrip s) → blank s.
Proof.
  unfold blank. induction s as [|c s IH]; [done|]. cbn.
  destruct (PyStr.is_space c) eqn:Hc; [done|]. cbn. by rewrite Hc.
Qed.

Lemma strip_empty_iff s : is_empty (PyStr.strip s) = true ↔ blank s.
Proof.
  split.
  - intros H. apply lstrip_blank_blank, rstrip_empty_blank.
    unfold PyStr.strip in H. by destruct (PyStr.rstrip _).
  - intros H. by rewrite strip_blank.
Qed.



Section FrontEndFurther.
Variable litellm_completion : nat → py_result response.
Variables ADK_SYSTEM_PROMPT ADK_SYSTEM_PROMPT_FUNCTION_ONLY : string.
Variable key_in_environ : bool.
Variable builtins : gset string.
Variable compile : string → compiled.
Variable exec : string → gmap string gval → behaviour.
Variable call_run_once : option gval → string → py_result value.
Variable call_strip : value → py_result value.
Variables format_exc_6 format_exc : exn → string.

Local Abbreviation front_end :=
  (generate_and_run litellm_completion ADK_SYSTEM_PROMPT
     ADK_SYSTEM_PROMPT_FUNCTION_ONLY key_in_environ builtins compile exec
     call_run_once call_strip format_exc_6 format_exc).

Local Abbreviation front_end_code :=
  (generate_and_run_code litellm_completion ADK_SYSTEM_PROMPT
     ADK_SYSTEM_PROMPT_FUNCTION_ONLY key_in_environ).



(** X8. A request with a blank intent, a blank input text, or no key at all
    (none given and none in the environment) is answered without the
    provider: the output shows the error, no generated code and no result,
    and the world is as it was. *)
Theorem generate_and_run_refuses_incomplete_requests
    (api_key model user_intent input_text : string) (function_only : bool)
    (req_timeout : option Q) (retries : option Z) (w : world) :
  blank user_intent ∨ blank input_text
  ∨ (api_key = "" ∧ key_in_environ = false) →
  ∃ cls text,
    front_end api_key model user_intent input_text function_only req_timeout
      retries w
    = (Return {| gen_code := ""; final_result := VStr "";
                 err_box_visible := true;
                 err_md := text +:+ BACKSLASH_N +:+ BACKSLASH_N
                           +:+ format_exc (Exn cls text None) |}, w)
    ∧ Exn cls text None
      ∈ [ Exn ValueError "User Intent is empty." None;
          Exn ValueError "Input Text is empty." None;
          Exn RuntimeError
            "No provider API key found. Provide an API key or set GEMINI_API_KEY / LITELLM_API_KEY in environment."
            None ].
Proof.
  intros H. unfold generate_and_run, generate_and_run_code.
  destruct (is_empty (PyStr.strip user_intent)) eqn:Hi.
  { eexists _, _. split; [reflexivity|]. repeat constructor. }
  destruct (is_empty (PyStr.strip input_text)) eqn:Ht.
  { eexists _, _. split; [reflexivity|]. repeat constructor. }
  destruct H as [H|[H|[-> ->]]].
  - apply strip_empty_iff in H. congruence.
  - apply strip_empty_iff in H. congruence.
  - eexists _, _. split; [reflexivity|]. repeat constructor.
Qed.

End FrontEndFurther.

(** A request with an intent of blanks only. *)
Lemma generate_and_run_refuses_incomplete_requests_witness :
  ∃ cls text,
    generate_and_run dead_provider "rules" "rules" true cpython_builtins
      (λ _, Compiled) (λ _ g, Fragment.go_on "" g) (λ _ _, Return VNone)
      (λ v, Return v) traceback_text traceback_text "key" "m" "   " "hello"
      false (Some 60%Q) (Some 2%Z) fresh_world
    = (Return {| gen_code := ""; final_result := VStr "";
                 err_box_visible := true;
                 err_md := text +:+ BACKSLASH_N +:+ BACKSLASH_N
                           +:+ traceback_text (Exn cls text None) |},
       fresh_world)
    ∧ Exn cls text None
      ∈ [ Exn ValueError "User Intent is empty." None;
          Exn ValueError "Input Text is empty." None;
          Exn RuntimeError
            "No provider API key found. Provide an API key or set GEMINI_API_KEY / LITELLM_API_KEY in environment."
            None ].
Proof.
  apply (generate_and_run_refuses_incomplete_requests dead_provider "rules"
           "rules" true cpython_builtins (λ _, Compiled)
           (λ _ g, Fragment.go_on "" g) (λ _ _, Return VNone) (λ v, Return v)
           traceback_text traceback_text
           "key" "m" "   " "hello" false (Some 60%Q) (Some 2%Z) fresh_world).
  left. reflexivity.
Defined.

Section AttemptsFurther.
Variable litellm_completion : nat → py_result response.


End AttemptsFurther.

Section FrontEndProvider.
Variable litellm_completion : nat → py_result response.
Variables ADK_SYSTEM_PROMPT ADK_SYSTEM_PROMPT_FUNCTION_ONLY : string.
Variable key_in_environ : bool.
Variable builtins : gset string.
Variable compile : string → compiled.
Variable exec : string → gmap string gval → behaviour.
Variable call_run_once : option gval → string → py_result value.
Variable call_strip : value → py_result value.
Variables format_exc_6 format_exc : exn → string.

Local Abbreviation front_end :=
  (generate_and_run litellm_completion ADK_SYSTEM_PROMPT
     ADK_SYSTEM_PROMPT_FUNCTION_ONLY key_in_environ builtins compile exec
     call_run_once call_strip format_exc_6 format_exc).


End FrontEndProvider.


(** ** The fenced block of a completion *)

Lemma contains_mono sub a m b :
  PyStr.contains sub m = true → PyStr.contains sub (a +:+ m +:+ b) = true.
Proof.
  rewrite !contains_spec. intros (x & y & ->). exists (a +:+ x), (y +:+ b).
  by str_norm.
Qed.

Lemma contains_tail sub c s :
  PyStr.contains sub (String c s) = false → PyStr.contains sub s = false.
Proof. cbn [PyStr.contains]. by intros [_ ?]%orb_false_iff. Qed.

Lemma strip_decomp s :
  ∃ a b, blank a ∧ blank b ∧ s = a +:+ PyStr.strip s +:+ b.
Proof.
  destruct (rstrip_decomp (PyStr.lstrip s)) as (t & Ht & Hs).
  exists (PyStr.leading_space s), t. split; [apply leading_space_blank|].
  split; [done|]. unfold PyStr.strip. rewrite <- Hs.
  apply leading_space_lstrip.
Qed.

Lemma contains_strip sub s :
  PyStr.contains sub s = false → PyStr.contains sub (PyStr.strip s) = false.
Proof.
  intros H. destruct (PyStr.contains sub (PyStr.strip s)) eqn:E; [|done].
  destruct (strip_decomp s) as (a & b & _ & _ & Hs).
  apply (contains_mono _ a _ b) in E. rewrite <- Hs in E. congruence.
Qed.

Lemma no_backquote_cons c s :
  no_backquote (String c s) ↔ c ≠ "`"%char ∧ no_backquote s.
Proof.
  unfold no_backquote. cbn. rewrite andb_true_iff, negb_true_iff.
  by rewrite bool_decide_eq_false.
Qed.

Lemma no_backquote_app a b :
  no_backquote (a +:+ b) ↔ no_backquote a ∧ no_backquote b.
Proof. unfold no_backquote. by rewrite all_chars_app, andb_true_iff. Qed.

Lemma startswith_FENCE_cons c s :
  c ≠ "`"%char → PyStr.startswith (String c s) FENCE = false.
Proof.
  intros Hc. cbn. rewrite bool_decide_eq_false_2; [done|]. congruence.
Qed.

Lemma contains_FENCE_app t r :
  no_backquote t → PyStr.contains FENCE (t +:+ r) = PyStr.contains FENCE r.
Proof.
  induction t as [|c t IH]; [done|]. intros [Hc Ht]%no_backquote_cons.
  rewrite str_app_cons. cbn [PyStr.contains].
  by rewrite startswith_FENCE_cons, IH.
Qed.

Lemma no_backquote_contains s : no_backquote s → PyStr.contains FENCE s = false.
Proof.
  intros H. rewrite <- (str_app_nil_r s). by rewrite contains_FENCE_app.
Qed.

Lemma blank_no_backquote s : blank s → no_backquote s.
Proof.
  induction s as [|c s IH]; [done|]. intros [Hc Hs]%blank_nil_inv.
  apply no_backquote_cons. split; [|by apply IH]. by intros ->.
Qed.

Lemma partition_FENCE_app pre rest :
  no_backquote pre →
  PyStr.partition FENCE (pre +:+ FENCE +:+ rest) = Some (pre, rest).
Proof.
  induction pre as [|c pre IH].
  - intros _. rewrite str_app_nil_l. by destruct rest.
  - intros [Hc Hpre]%no_backquote_cons. rewrite str_app_cons.
    cbn [PyStr.partition]. rewrite startswith_FENCE_cons by done.
    by rewrite IH.
Qed.

Lemma partition_no_sep sep s a b :
  sep ≠ "" → PyStr.partition sep s = Some (a, b) →
  PyStr.contains sep a = false.
Proof.
  intros Hsep. revert a. induction s as [|c s IH]; intros a; cbn.
  - destruct (PyStr.startswith "" sep); [|done]. intros [= <- <-].
    by destruct sep.
  - destruct (PyStr.startswith (String c s) sep) eqn:E.
    + intros [= <- <-]. by destruct sep.
    + destruct (PyStr.partition sep s) as [[a' b']|] eqn:Hp; [|done].
      intros [= <- <-]. cbn [PyStr.contains]. rewrite (IH a' eq_refl).
      rewrite orb_false_r.
      destruct (PyStr.startswith (String c a') sep) eqn:E'; [|done].
      apply startswith_spec in E' as [r Hr].
      apply partition_Some in Hp as ->.
      rewrite <- str_app_cons, Hr, str_app_assoc in E.
      by rewrite startswith_app in E.
Qed.

Lemma partition_contains sep s :
  PyStr.contains sep s = true → is_Some (PyStr.partition sep s).
Proof.
  induction s as [|c s IH]; cbn.
  - rewrite orb_false_r. by intros ->.
  - destruct (PyStr.startswith (String c s) sep); [done|]. cbn.
    intros [q Hq]%IH. rewrite Hq. by destruct q.
Qed.

Lemma sanitize_fences_fence_free x :
  PyStr.contains FENCE x = false → _sanitize_fences x = x.
Proof.
  intros H. unfold _sanitize_fences.
  assert (cut_opening_fence x = x) as ->.
  { unfold cut_opening_fence.
    destruct (PyStr.after FENCE (PyStr.lstrip x)) as [s|] eqn:E; [|done].
    apply after_Some in E.
    assert (PyStr.contains FENCE x = true); [|congruence].
    rewrite (leading_space_lstrip x), E.
    apply (contains_mono FENCE _ FENCE s). by vm_compute. }
  induction x as [|c x IH]; [done|].
  cbn [cut_closing_fence].
  destruct (PyStr.after (PyStr.nl +:+ FENCE) (String c x)) as [r|] eqn:E.
  - apply after_Some in E.
    assert (PyStr.contains FENCE (String c x) = true); [|congruence].
    rewrite E. rewrite str_app_assoc.
    apply (contains_mono FENCE PyStr.nl FENCE r). by vm_compute.
  - by rewrite IH by (by apply contains_tail in H).
Qed.

Lemma crlf_to_lf_cons c d s :
  PyStr.crlf_to_lf (String c (String d s))
  = if bool_decide (c = PyStr.CR) && bool_decide (d = PyStr.LF)
    then String PyStr.LF (PyStr.crlf_to_lf s)
    else String c (PyStr.crlf_to_lf (String d s)).
Proof. reflexivity. Qed.

Lemma crlf_to_lf_head s c r :
  PyStr.crlf_to_lf s = String c r → c ≠ PyStr.LF →
  ∃ s', s = String c s' ∧ r = PyStr.crlf_to_lf s'.
Proof.
  destruct s as [|x [|d s]].
  - done.
  - intros [= <- <-] _. by exists "".
  - rewrite crlf_to_lf_cons.
    destruct (bool_decide (x = PyStr.CR) && bool_decide (d = PyStr.LF)).
    + by intros [= <- <-].
    + intros [= <- <-] _. by eexists.
Qed.

(** Joining the two characters of a line end makes no fence. *)
Lemma crlf_to_lf_fence s :
  PyStr.contains FENCE (PyStr.crlf_to_lf s) = true →
  PyStr.contains FENCE s = true.
Proof.
  remember (String.length s) as n eqn:Hn. revert s Hn.
  induction n as [n IH] using lt_wf_ind. intros s Hn.
  destruct s as [|x [|d s]]; [done|done|].
  rewrite crlf_to_lf_cons.
  destruct (bool_decide (x = PyStr.CR) && bool_decide (d = PyStr.LF)).
  - intros H. cbn [PyStr.contains] in H.
    rewrite startswith_FENCE_cons, orb_false_l in H by done.
    apply (IH (String.length s)) in H; [|cbn in Hn; lia|done].
    apply (contains_mono FENCE (String x (String d "")) s "") in H.
    by rewrite str_app_nil_r in H.
  - intros H. cbn [PyStr.contains] in H.
    apply orb_true_iff in H as [H|H].
    + apply startswith_spec in H as [r Hr].
      assert (x = "`"%char
              ∧ PyStr.crlf_to_lf (String d s) = String "`" (String "`" r))
        as [-> Hr'] by (by injection Hr).
      apply crlf_to_lf_head in Hr' as (s1 & [= -> <-] & Hr'); [|done].
      symmetry in Hr'. apply crlf_to_lf_head in Hr' as (s2 & -> & _); [|done].
      done.
    + apply (IH (String.length (String d s))) in H; [|cbn in *; lia|done].
      apply (contains_mono FENCE (String x "") (String d s) "") in H.
      by rewrite str_app_nil_r in H.
Qed.

Lemma after_ci_Some p s r :
  no_backquote p → PyStr.after_ci p s = Some r →
  ∃ t, s = t +:+ r ∧ no_backquote t.
Proof.
  revert s. induction p as [|a p IH]; intros s; cbn.
  - intros _ [= ->]. by exists "".
  - intros [Ha Hp]%no_backquote_cons. destruct s as [|b s]; [done|].
    destruct (bool_decide (a = PyStr.lower b)) eqn:E; [|done].
    apply bool_decide_eq_true in E. intros (t & -> & Ht)%IH; [|done].
    exists (String b t). split; [done|]. apply no_backquote_cons.
    split; [|done]. intros ->. by apply Ha.
Qed.

(** What [CODE_FENCE] matches: a fence, then letters and white space, then
    the group, which has no fence in it, then a fence. *)
Lemma CODE_FENCE_search_Some text g :
  CODE_FENCE_search text = Some g →
  PyStr.contains FENCE g = false
  ∧ ∃ pre mid post,
      text = pre +:+ FENCE +:+ mid +:+ g +:+ FENCE +:+ post
      ∧ no_backquote mid.
Proof.
  unfold CODE_FENCE_search.
  destruct (PyStr.partition FENCE text) as [[pre s]|] eqn:Hp; [|done].
  cbn [PyStr.andthen snd].
  set (s2 := match PyStr.after_ci "python" s with
             | Some s1 => s1
             | None => match PyStr.after_ci "py" s with
                       | Some s1 => s1
                       | None => s
                       end
             end).
  assert (∃ t, s = t +:+ s2 ∧ no_backquote t) as (t & Hs & Ht).
  { subst s2. destruct (PyStr.after_ci "python" s) eqn:E1.
    { by apply after_ci_Some in E1. }
    destruct (PyStr.after_ci "py" s) eqn:E2.
    { by apply after_ci_Some in E2. }
    by exists "". }
  destruct (PyStr.partition FENCE (PyStr.lstrip s2)) as [[g' post]|] eqn:Hq;
    [|done].
  cbn [PyStr.andthen fst]. intros [= <-]. split.
  { by apply (partition_no_sep FENCE _ _ _ ltac:(done) Hq). }
  apply partition_Some in Hp, Hq.
  exists pre, (t +:+ PyStr.leading_space s2), post. split.
  - rewrite Hp, Hs. rewrite (leading_space_lstrip s2) at 1. rewrite Hq.
    by str_norm.
  - apply no_backquote_app. split; [done|].
    apply blank_no_backquote, leading_space_blank.
Qed.

(** X12. The source the generators take out of a completion never contains
    a fence: the group of [CODE_FENCE] ends at the first fence after the
    opening one, so the fence sanitizer finds nothing to remove there, and
    the source is the stripped group with its line ends normalised. *)
Theorem extract_code_is_fence_free (text : option string) (code : string) :
  extract_code text = Return code →
  (∀ a b, code ≠ a +:+ FENCE +:+ b)
  ∧ ∃ g, CODE_FENCE_search (default "" text) = Some g
         ∧ _sanitize_fences (PyStr.strip g) = PyStr.strip g
         ∧ code = PyStr.crlf_to_lf (PyStr.strip g).
Proof.
  unfold extract_code.
  destruct (CODE_FENCE_search (default "" text)) as [g|] eqn:E; [|done].
  intros [= <-]. destruct (CODE_FENCE_search_Some _ _ E) as [Hg _].
  apply (contains_strip FENCE) in Hg.
  rewrite (sanitize_fences_fence_free _ Hg). split.
  2:{ exists g. split; [done|]. split; [|done].
      by apply sanitize_fences_fence_free. }
  intros a b Hab.
  assert (PyStr.contains FENCE (PyStr.crlf_to_lf (PyStr.strip g)) = true)
    as H%crlf_to_lf_fence; [|congruence].
  apply contains_spec. eauto.
Qed.

(** The fixture of the generators. *)
Lemma extract_code_is_fence_free_witness :
  (∀ a b, contract_source ≠ a +:+ FENCE +:+ b)
  ∧ ∃ g, CODE_FENCE_search (default "" (content (fenced contract_source)))
         = Some g
         ∧ _sanitize_fences (PyStr.strip g) = PyStr.strip g
         ∧ contract_source = PyStr.crlf_to_lf (PyStr.strip g).
Proof.
  apply (extract_code_is_fence_free (content (fenced contract_source))
           contract_source).
  vm_compute. reflexivity.
Defined.

Lemma lstrip_app_solid a c b :
  PyStr.is_space c = false →
  PyStr.lstrip (a +:+ String c b) = PyStr.lstrip a +:+ String c b.
Proof.
  intros Hc. induction a as [|x a IH].
  - rewrite !str_app_nil_l. cbn. by rewrite Hc.
  - rewrite str_app_cons. cbn. by destruct (PyStr.is_space x).
Qed.

Lemma no_backquote_lstrip s : no_backquote s → no_backquote (PyStr.lstrip s).
Proof.
  induction s as [|c s IH]; [done|]. intros H. cbn.
  destruct (PyStr.is_space c); [|done].
  apply IH. by apply no_backquote_cons in H as [_ ?].
Qed.

Lemma strip_lstrip s : PyStr.strip (PyStr.lstrip s) = PyStr.strip s.
Proof.
  unfold PyStr.strip. by rewrite (lstrip_solid _ (lstrip_starts_solid s)).
Qed.

Lemma str_app_inv_l a x y : a +:+ x = a +:+ y → x = y.
Proof.
  induction a as [|c a IH]; [done|]. rewrite !str_app_cons.
  intros [= H]. by apply IH.
Qed.

(** [partition] cuts at the leftmost occurrence. *)
Lemma partition_leftmost sep s pre rest a r :
  PyStr.partition sep s = Some (pre, rest) → s = a +:+ sep +:+ r →
  ∃ k, a = pre +:+ k.
Proof.
  revert pre a. induction s as [|c s IH]; intros pre a; cbn.
  - destruct (PyStr.startswith "" sep); [|done]. intros [= <- <-] _.
    by exists a.
  - destruct (PyStr.startswith (String c s) sep) eqn:E.
    { intros [= <- <-] _. by exists a. }
    destruct (PyStr.partition sep s) as [[pre' rest']|] eqn:Hp; [|done].
    intros [= <- <-] Hs. destruct a as [|c' a].
    + rewrite str_app_nil_l in Hs. by rewrite Hs, startswith_app in E.
    + rewrite str_app_cons in Hs. injection Hs as <- Hs.
      destruct (IH pre' a eq_refl Hs) as [k ->]. by exists k.
Qed.

(** What the optional word after the opening fence takes away has no back
    quote. *)
Lemma CODE_FENCE_tag s :
  ∃ t, s = t +:+ match PyStr.after_ci "python" s with
                 | Some s1 => s1
                 | None => match PyStr.after_ci "py" s with
                           | Some s1 => s1
                           | None => s
                           end
                 end
       ∧ no_backquote t.
Proof.
  destruct (PyStr.after_ci "python" s) eqn:E1.
  { by apply after_ci_Some in E1. }
  destruct (PyStr.after_ci "py" s) eqn:E2.
  { by apply after_ci_Some in E2. }
  by exists "".
Qed.

(** A fence that starts at or after the end of another one is still there
    when that one is cut off. *)
Lemma contains_after_fence k rest :
  PyStr.contains FENCE rest = true →
  PyStr.contains FENCE
    (PyStr.drop (String.length FENCE) (k +:+ FENCE +:+ rest)) = true.
Proof.
  intros H. destruct k as [|x [|y [|z k]]]; str_norm.
  - by rewrite drop_length_app.
  - cbn [String.length FENCE PyStr.drop].
    apply (contains_mono FENCE "`" _ "") in H.
    by rewrite str_app_nil_r in H.
  - cbn [String.length FENCE PyStr.drop].
    apply (contains_mono FENCE "``" _ "") in H.
    by rewrite str_app_nil_r in H.
  - cbn [String.length FENCE PyStr.drop]. apply contains_spec. eauto.
Qed.

(** Two fences that do not overlap are enough for [CODE_FENCE]. *)
Lemma CODE_FENCE_search_two_fences a b c :
  is_Some (CODE_FENCE_search (a +:+ FENCE +:+ b +:+ FENCE +:+ c)).
Proof.
  unfold CODE_FENCE_search.
  destruct (partition_contains FENCE (a +:+ FENCE +:+ b +:+ FENCE +:+ c))
    as [[pre s] Hp].
  { apply contains_spec. eauto. }
  rewrite Hp. cbn [PyStr.andthen snd].
  destruct (partition_leftmost _ _ _ _ _ _ Hp eq_refl) as [k ->].
  apply partition_Some in Hp. rewrite str_app_assoc in Hp.
  apply str_app_inv_l in Hp.
  assert (PyStr.contains FENCE s = true) as Hs.
  { rewrite <- (drop_length_app FENCE s), <- Hp.
    apply contains_after_fence, contains_spec. eauto. }
  destruct (CODE_FENCE_tag s) as (t & Ht & Hno).
  set (s2 := match PyStr.after_ci "python" s with
             | Some s1 => s1
             | None => match PyStr.after_ci "py" s with
                       | Some s1 => s1
                       | None => s
                       end
             end) in *.
  rewrite Ht, contains_FENCE_app in Hs by done.
  rewrite (leading_space_lstrip s2), contains_FENCE_app in Hs
    by apply blank_no_backquote, leading_space_blank.
  apply partition_contains in Hs as [[g post] Hq]. by rewrite Hq.
Qed.

(** X13. A block that opens with a fence, an optional [python] or [py] and
    a line end is taken whole: when there is no back quote before the block
    or in it, the generators get the text of the block, stripped and with its
    line ends normalised, whatever comes after the closing fence. *)
Theorem extract_code_takes_the_first_block (pre tag src post : string) :
  no_backquote pre → no_backquote src →
  tag ∈ ["python"; "Python"; "py"; ""] →
  extract_code
    (Some (pre +:+ FENCE +:+ tag +:+ PyStr.nl +:+ src +:+ FENCE +:+ post))
  = Return (PyStr.crlf_to_lf (PyStr.strip src)).
Proof.
  intros Hpre Hsrc Htag. unfold extract_code, CODE_FENCE_search.
  cbn [default from_option id].
  rewrite partition_FENCE_app by done. cbn [PyStr.andthen snd].
  assert (match PyStr.after_ci "python"
                  (tag +:+ PyStr.nl +:+ src +:+ FENCE +:+ post) with
          | Some s1 => s1
          | None =>
              match PyStr.after_ci "py"
                      (tag +:+ PyStr.nl +:+ src +:+ FENCE +:+ post) with
              | Some s1 => s1
              | None => tag +:+ PyStr.nl +:+ src +:+ FENCE +:+ post
              end
          end = PyStr.nl +:+ src +:+ FENCE +:+ post) as ->.
  { set_unfold in Htag. destruct_or! Htag; subst tag; by str_norm. }
  rewrite (lstrip_blank_app PyStr.nl) by done.
  change (FENCE +:+ post) with (String "`" ("``" +:+ post)).
  rewrite lstrip_app_solid by done.
  change (String "`" ("``" +:+ post)) with (FENCE +:+ post).
  rewrite partition_FENCE_app by (by apply no_backquote_lstrip).
  cbn [PyStr.andthen fst]. rewrite strip_lstrip.
  by rewrite sanitize_fences_fence_free
    by apply contains_strip, no_backquote_contains, Hsrc.
Qed.

(** An answer with a sentence before the block and one after it. *)
Lemma extract_code_takes_the_first_block_witness :
  extract_code
    (Some ("Here you are:" +:+ PyStr.nl +:+ FENCE +:+ "python" +:+ PyStr.nl
           +:+ (contract_source +:+ PyStr.nl) +:+ FENCE
           +:+ (PyStr.nl +:+ "Use `run_once` to call it.")))
  = Return (PyStr.crlf_to_lf (PyStr.strip (contract_source +:+ PyStr.nl))).
Proof.
  rewrite <- (str_app_assoc "Here you are:" PyStr.nl).
  apply (extract_code_takes_the_first_block ("Here you are:" +:+ PyStr.nl)
           "python" (contract_source +:+ PyStr.nl)
           (PyStr.nl +:+ "Use `run_once` to call it."));
    [reflexivity|reflexivity|repeat constructor].
Defined.

(** X14. The generators find no code block exactly when the completion does
    not have two fences that do not overlap: any text between two fences is
    taken as the block, whatever word follows the opening fence, and a
    single fence, or none, or a missing content, gives the [ValueError]. *)
Theorem extract_code_needs_two_fences (text : option string) :
  extract_code text
  = Raise (Exn ValueError "No python code block found in LLM output." None)
  ↔ ¬ ∃ a b c, default "" text = a +:+ FENCE +:+ b +:+ FENCE +:+ c.
Proof.
  unfold extract_code. split.
  - intros H (a & b & c & Ht). rewrite Ht in H.
    destruct (CODE_FENCE_search_two_fences a b c) as [g Hg].
    by rewrite Hg in H.
  - intros H.
    destruct (CODE_FENCE_search (default "" text)) as [g|] eqn:E; [|done].
    destruct H. apply CODE_FENCE_search_Some in E
      as (_ & pre & mid & post & -> & _).
    exists pre, (mid +:+ g), post. by str_norm.
Qed.

(** ** The generators and the retries *)

Section GeneratorsFurther.
Variable litellm_completion : nat → py_result response.
Variables ADK_SYSTEM_PROMPT ADK_SYSTEM_PROMPT_FUNCTION_ONLY : string.

(** The wrapper hands on the first response it gets. *)
Lemma llm_completion_first_response model api_key messages timeout_s
    max_retries w k (errs : nat → exn) resp :
  (Z.of_nat k < max_retries)%Z →
  (∀ i, i < k →
     litellm_completion (calls w + i) = Raise (errs i)
     ∧ caught_by_except_Exception (errs i) = true) →
  litellm_completion (calls w + k) = Return resp →
  ∃ w',
    _llm_completion litellm_completion model api_key messages timeout_s
      max_retries w = (Return (Some resp), w')
    ∧ calls w' = calls w + k + 1.
Proof.
  intros Hk Hall Hr. unfold _llm_completion.
  set (ev := Completion model messages 0 timeout_s timeout_s).
  replace (Z.to_nat max_retries) with (k + S (Z.to_nat max_retries - k - 1))
    by lia.
  destruct (attempts_retried litellm_completion ev max_retries k
              (S (Z.to_nat max_retries - k - 1)) errs 0
              (set_api_key api_key w)) as (wk & Hrun & Hc & _).
  { lia. }
  { intros i Hi. autorewrite with world. by apply Hall. }
  autorewrite with world in Hc.
  rewrite Hrun, (attempts_step_ok _ _ _ _ _ _ resp) by (by rewrite Hc).
  eexists. split; [done|]. autorewrite with world. lia.
Qed.

(** X15. The retries are for the provider only. Once a call of the provider
    has returned a response, after [k] failures that were retried, both
    generators judge that response and no other: what they return or raise
    is what the extraction and the checks make of it, and the provider has
    been called exactly [k + 1] times, also when the response is
    rejected. *)
Theorem generators_judge_the_first_response
    (model api_key user_intent : string) (timeout_s max_retries : Z)
    (w : world) (k : nat) (errs : nat → exn) (resp : response) :
  (Z.of_nat k < max_retries)%Z →
  (∀ i, i < k →
     litellm_completion (calls w + i) = Raise (errs i)
     ∧ caught_by_except_Exception (errs i) = true) →
  litellm_completion (calls w + k) = Return resp →
  ∃ w1 w2,
    generate_adk_code litellm_completion ADK_SYSTEM_PROMPT model api_key
      user_intent timeout_s max_retries w
    = (bind_result (extract_code (content resp)) validate_and_patch, w1)
    ∧ _generate_adk_code_function_only litellm_completion
        ADK_SYSTEM_PROMPT_FUNCTION_ONLY model api_key user_intent timeout_s
        max_retries w
      = (bind_result (extract_code (content resp)) validate_function_only, w2)
    ∧ calls w1 = calls w + k + 1
    ∧ calls w2 = calls w + k + 1.
Proof.
  intros Hk Hall Hr.
  unfold generate_adk_code, _generate_adk_code_function_only.
  destruct (llm_completion_first_response model api_key
              [("system", ADK_SYSTEM_PROMPT);
               ("user", build_user_prompt user_intent)]
              timeout_s max_retries w k errs resp Hk Hall Hr)
    as (w1 & -> & Hc1).
  destruct (llm_completion_first_response model api_key
              [("system", ADK_SYSTEM_PROMPT_FUNCTION_ONLY);
               ("user", build_user_prompt user_intent)]
              timeout_s max_retries w k errs resp Hk Hall Hr)
    as (w2 & -> & Hc2).
  by exists w1, w2.
Qed.
End GeneratorsFurther.

(** The provider times out twice and then answers without a code block: the
    answer is rejected after three calls. *)
Lemma generators_judge_the_first_response_witness :
  ∃ w1 w2,
    generate_adk_code flaky_provider "rules" "m" "key" "echo" 60 5 fresh_world
    = (bind_result (extract_code (content ok_response)) validate_and_patch, w1)
    ∧ _generate_adk_code_function_only flaky_provider "rules" "m" "key" "echo"
        60 5 fresh_world
      = (bind_result (extract_code (content ok_response))
           validate_function_only, w2)
    ∧ calls w1 = 0 + 2 + 1
    ∧ calls w2 = 0 + 2 + 1.
Proof.
  apply (generators_judge_the_first_response flaky_provider "rules" "rules"
           "m" "key" "echo" 60 5 fresh_world 2 timeout_error ok_response);
    [lia| |reflexivity].
  intros i Hi. destruct i as [|[|i]]; [split; reflexivity..|lia].
Defined.

(** ** The patcher, step by step *)

(** What the loop keeps: lines of the input in their order, and every line
    that is not a pure [print] line. *)
Lemma strip_prints_keeps (lines : list string) :
  ∀ b i,
    strip_prints b i lines `sublist_of` lines
    ∧ List.filter (λ l, negb (is_pure_print l)) (strip_prints b i lines)
      = List.filter (λ l, negb (is_pure_print l)) lines.
Proof.
  induction lines as [|l lines IH]; intros b i; cbn; [done|].
  destruct (negb b && is_run_once_header l).
  { destruct (IH true (Some (PyStr.indent_of l))) as [H1 H2].
    split; [by apply sublist_skip|]. cbn. by rewrite H2. }
  destruct b.
  - destruct (is_def_header l && _).
    { destruct (IH false i) as [H1 H2].
      split; [by apply sublist_skip|]. cbn. by rewrite H2. }
    destruct (IH true i) as [H1 H2].
    destruct (is_pure_print l) eqn:E; cbn; rewrite ?E; cbn.
    + split; [by apply sublist_cons|done].
    + split; [by apply sublist_skip|]. by rewrite H2.
  - destruct (IH false i) as [H1 H2].
    split; [by apply sublist_skip|]. cbn. by rewrite H2.
Qed.

Lemma strip_prints_without_header (lines : list string) i :
  Forall (λ l, is_run_once_header l = false) lines →
  strip_prints false i lines = lines.
Proof.
  induction 1 as [|l lines Hl _ IH]; [done|]. cbn. rewrite Hl. cbn.
  by rewrite IH.
Qed.

(** X16. On a text whose lines are joined by line feeds, the first step of
    the patcher gives the lines it keeps, joined by line feeds. It only
    ever removes pure [print] lines: what it keeps are lines of the input in
    their order, and every line that is not a pure [print] line is kept. A
    text that has no header of [run_once] comes back as it is, and a line
    feed at the end of the text is dropped. *)
Theorem strip_prints_only_drops_print_lines (lines : list string) :
  plain_lines lines →
  ∃ out,
    strip_prints_in_run_once (PyStr.join PyStr.nl lines)
    = PyStr.join PyStr.nl out
    ∧ out `sublist_of` lines
    ∧ List.filter (λ l, negb (is_pure_print l)) out
      = List.filter (λ l, negb (is_pure_print l)) lines
    ∧ (Forall (λ l, is_run_once_header l = false) lines →
       strip_prints_in_run_once (PyStr.join PyStr.nl lines)
       = PyStr.join PyStr.nl lines)
    ∧ (lines ≠ [] →
       strip_prints_in_run_once (PyStr.join PyStr.nl lines +:+ PyStr.nl)
       = PyStr.join PyStr.nl out).
Proof.
  intros [H1 H2]%splitlines_join. unfold strip_prints_in_run_once.
  exists (strip_prints false None lines).
  destruct (strip_prints_keeps lines false None) as [Hsub Hfilter].
  rewrite H1. split; [done|]. split; [done|]. split; [done|]. split.
  - intros Hno. by rewrite strip_prints_without_header.
  - intros Hne. by rewrite (H2 Hne).
Qed.

(** The script with a [print] inside [run_once] and one after it. *)
Lemma strip_prints_only_drops_print_lines_witness :
  ∃ out,
    strip_prints_in_run_once
      (PyStr.join PyStr.nl
         [ "async def run_once(user_text: str) -> str:";
           "    print('working')";
           "    return user_text";
           "";
           "x = 1" ])
    = PyStr.join PyStr.nl out
    ∧ out `sublist_of`
        [ "async def run_once(user_text: str) -> str:";
          "    print('working')";
          "    return user_text";
          "";
          "x = 1" ]
    ∧ List.filter (λ l, negb (is_pure_print l)) out
      = List.filter (λ l, negb (is_pure_print l))
          [ "async def run_once(user_text: str) -> str:";
            "    print('working')";
            "    return user_text";
            "";
            "x = 1" ]
    ∧ (Forall (λ l, is_run_once_header l = false)
         [ "async def run_once(user_text: str) -> str:";
           "    print('working')";
           "    return user_text";
           "";
           "x = 1" ] →
       strip_prints_in_run_once
         (PyStr.join PyStr.nl
            [ "async def run_once(user_text: str) -> str:";
              "    print('working')";
              "    return user_text";
              "";
              "x = 1" ])
       = PyStr.join PyStr.nl
           [ "async def run_once(user_text: str) -> str:";
             "    print('working')";
             "    return user_text";
             "";
             "x = 1" ])
    ∧ ([ "async def run_once(user_text: str) -> str:";
         "    print('working')";
         "    return user_text";
         "";
         "x = 1" ] ≠ [] →
       strip_prints_in_run_once
         (PyStr.join PyStr.nl
            [ "async def run_once(user_text: str) -> str:";
              "    print('working')";
              "    return user_text";
              "";
              "x = 1" ] +:+ PyStr.nl)
       = PyStr.join PyStr.nl out).
Proof.
  apply (strip_prints_only_drops_print_lines
           [ "async def run_once(user_text: str) -> str:";
             "    print('working')";
             "    return user_text";
             "";
             "x = 1" ]).
  split; [by repeat constructor|done].
Defined.

Lemma guard_without_body_spec s :
  guard_without_body s = true ↔ ∃ a r, s = a +:+ MAIN_GUARD +:+ r ∧ blank r.
Proof.
  split.
  - induction s as [|c s IH]; cbn [guard_without_body].
    + rewrite orb_false_r.
      destruct (PyStr.after MAIN_GUARD "") as [r|] eqn:E; [|done].
      apply after_Some in E. intros Hr. by exists "", r.
    + intros [H|H]%orb_true_iff.
      * destruct (PyStr.after MAIN_GUARD (String c s)) as [r|] eqn:E; [|done].
        apply after_Some in E. by exists "", r.
      * destruct (IH H) as (a & r & -> & Hr). by exists (String c a), r.
  - intros (a & r & -> & Hr). induction a as [|c a IH].
    + rewrite str_app_nil_l. destruct (MAIN_GUARD +:+ r) eqn:E;
        cbn [guard_without_body]; rewrite <- E, after_app, Hr; done.
    + rewrite str_app_cons. cbn [guard_without_body]. by rewrite IH, orb_true_r.
Qed.

(** With the default body at its end, a text has no guard without body. *)
Lemma guard_body_added p : guard_without_body (p +:+ DEFAULT_BODY) = false.
Proof.
  destruct (guard_without_body (p +:+ DEFAULT_BODY)) eqn:E; [|done].
  apply guard_without_body_spec in E as (a & r & E & Hr).
  apply (f_equal PyStr.rstrip) in E.
  set (body := PyStr.nl +:+ "    print(asyncio.run(run_once(INPUT_TEXT))").
  set (guard := "if __name__ == " +:+ PyStr.dq +:+ "__main__" +:+ PyStr.dq).
  replace (p +:+ DEFAULT_BODY) with (((p +:+ body) +:+ ")") +:+ PyStr.nl) in E
    by (subst body; unfold DEFAULT_BODY; by str_norm).
  replace (a +:+ MAIN_GUARD +:+ r) with (((a +:+ guard) +:+ ":") +:+ r) in E
    by (subst guard; unfold MAIN_GUARD; by str_norm).
  rewrite (rstrip_app_blank _ PyStr.nl), (rstrip_app_blank _ r) in E by done.
  rewrite !rstrip_ends_solid in E by done.
  apply (f_equal PyStr.unsnoc) in E. by rewrite !unsnoc_app in E.
Qed.

(** X17. In the patched script no [__main__] guard is the last thing of the
    text: whenever the guard occurs, something other than white space comes
    after it. Step 5 sees to it, and applying it once more changes
    nothing. *)
Theorem patched_guard_has_a_body (code a r : string) :
  _patch_generated_code code = a +:+ MAIN_GUARD +:+ r →
  ¬ blank r
  ∧ ensure_guard_body (_patch_generated_code code) = _patch_generated_code code.
Proof.
  unfold _patch_generated_code.
  set (p := fix_guard_typos _). clearbody p.
  assert (guard_without_body (ensure_guard_body p) = false) as Hno.
  { unfold ensure_guard_body. destruct (guard_without_body p) eqn:E; [|done].
    apply guard_body_added. }
  intros H. split.
  - intros Hr. rewrite H in Hno.
    assert (guard_without_body (a +:+ MAIN_GUARD +:+ r) = true); [|congruence].
    apply guard_without_body_spec. eauto.
  - unfold ensure_guard_body at 1. by rewrite Hno.
Qed.

(** The script that ends with the guard gets the default body. *)
Lemma patched_guard_has_a_body_witness :
  ¬ blank DEFAULT_BODY
  ∧ ensure_guard_body (_patch_generated_code script_with_empty_guard)
    = _patch_generated_code script_with_empty_guard.
Proof.
  apply (patched_guard_has_a_body script_with_empty_guard
           (PyStr.join PyStr.nl
              (contract_imports ++
               [ "async def run_once(user_text: str) -> str:";
                 "    return user_text"; "" ]) +:+ PyStr.nl)
           DEFAULT_BODY).
  vm_compute. reflexivity.
Defined.

(** X18. After step 3 a script that calls [session_service.create_session]
    mentions all three constants, in the header if nowhere else; the step
    asks for nothing more on its own result, so that applying it twice is
    applying it once. *)
Theorem inject_constants_settles (patched : string) :
  let out := inject_constants patched in
  need_constants out = false
  ∧ inject_constants out = out
  ∧ (occurs_in "session_service.create_session" patched →
     ∀ k, k ∈ CONSTANT_NAMES → occurs_in k out).
Proof.
  cbv zeta.
  assert (need_constants (inject_constants patched) = false) as Hno.
  { unfold inject_constants. destruct (need_constants patched) eqn:E; [|done].
    unfold need_constants.
    assert (forallb (λ k, PyStr.contains k (header +:+ patched))
              CONSTANT_NAMES = true) as ->; [|by rewrite andb_false_r].
    cbn [forallb CONSTANT_NAMES]. rewrite !andb_true_iff.
    repeat split. }
  split; [done|]. split.
  - unfold inject_constants at 1. by rewrite Hno.
  - intros Hcall%contains_spec k Hk. apply contains_spec.
    unfold need_constants in Hno. apply andb_false_iff in Hno as [Hno|Hno].
    + assert (PyStr.contains "session_service.create_session"
                (inject_constants patched) = true); [|congruence].
      unfold inject_constants. destruct (need_constants patched).
      * apply (contains_mono _ header _ "") in Hcall.
        { by rewrite str_app_nil_r in Hcall. }
      * done.
    + apply negb_false_iff in Hno. rewrite forallb_forall in Hno.
      by apply Hno, list_elem_of_In.
Qed.

(** ** The import hook and the standard modules *)

(** X19. The standard modules are allowed by their exact names only: a name
    that goes on after one of them, as [os.path], [json.decoder] or
    [collections.abc] do, is refused by the hook, while any name that goes
    on after one of the three prefixes is let through. *)
Theorem safe_import_refuses_longer_standard_names
    {Args M : Type} (real_import : string → Args → M)
    (m rest : string) (args : Args) :
  m ∈ ALLOWED_STD_MODULES → rest ≠ "" →
  _safe_import real_import (m +:+ rest) args
  = Rejected (import_refused (m +:+ rest))
  ∧ _safe_import real_import m args = Delegated (real_import m args).
Proof.
  intros Hm Hrest. unfold _safe_import.
  assert (import_allowed m = true) as ->.
  { apply import_allowed_spec. by right. }
  split; [|done].
  assert (import_allowed (m +:+ rest) = false) as ->; [|done].
  unfold import_allowed. apply orb_false_iff.
  unfold ALLOWED_STD_MODULES in *. set_unfold in Hm.
  split.
  - destruct_or! Hm; subst m; by str_norm.
  - apply bool_decide_eq_false. set_unfold. intros H.
    destruct_or! Hm; subst m; str_norm_hyp H; destruct_or! H;
      try discriminate H; injection H as H; by destruct rest.
Qed.

(** [import os.path] in the sandbox. *)
Lemma safe_import_refuses_longer_standard_names_witness :
  _safe_import (λ name (_ : unit), name) ("os" +:+ ".path") ()
  = Rejected (import_refused ("os" +:+ ".path"))
  ∧ _safe_import (λ name (_ : unit), name) "os" () = Delegated "os".
Proof.
  apply (safe_import_refuses_longer_standard_names (λ name _, name) "os"
           ".path" ()); [|done].
  refine (bool_decide_unpack _ _). vm_compute. exact I.
Defined.

(** ** The forbidden patterns of the function-only generator *)

Lemma search_INPUT_TEXT_unfold pw s :
  search_INPUT_TEXT pw s
  = (negb pw &&
     match PyStr.after "INPUT_TEXT" s with
     | Some r => negb (next_is_word r)
     | None => false
     end)
    || match s with
       | "" => false
       | String c s' => search_INPUT_TEXT (PyStr.is_word c) s'
       end.
Proof. by destruct s. Qed.

Lemma search_print_call_unfold pw s :
  search_print_call pw s
  = (negb pw &&
     match PyStr.andthen (PyStr.after "print" s)
             (λ s, PyStr.after "(" (PyStr.lstrip s)) with
     | Some _ => true
     | None => false
     end)
    || match s with
       | "" => false
       | String c s' => search_print_call (PyStr.is_word c) s'
       end.
Proof. by destruct s. Qed.

Lemma search_main_guard_unfold s :
  search_main_guard s
  = match
      PyStr.andthen (PyStr.after "if __name__" s) (λ s,
      PyStr.andthen (PyStr.after "==" (PyStr.lstrip s)) (λ s,
      PyStr.andthen (quote (PyStr.lstrip s)) (λ s,
      PyStr.andthen (PyStr.after "__main__" s) quote)))
    with Some _ => true | None => false end
    || match s with
       | "" => false
       | String _ s' => search_main_guard s'
       end.
Proof. by destruct s. Qed.

Lemma word_before_cons pw c a :
  word_before pw (String c a) = word_before (PyStr.is_word c) a.
Proof.
  unfold word_before. cbn. by destruct (PyStr.unsnoc a) as [[??]|].
Qed.

Lemma boundary_before_next b : boundary_before b → next_is_word b = false.
Proof. by destruct b. Qed.

Lemma search_INPUT_TEXT_complete a b :
  ∀ pw, word_before pw a = false → boundary_before b →
        search_INPUT_TEXT pw (a +:+ "INPUT_TEXT" +:+ b) = true.
Proof.
  induction a as [|c a IH]; intros pw Hpw Hb; rewrite search_INPUT_TEXT_unfold.
  - rewrite str_app_nil_l, after_app. cbn in Hpw. subst pw.
    by rewrite boundary_before_next.
  - rewrite str_app_cons. rewrite word_before_cons in Hpw.
    by rewrite (IH _ Hpw Hb), orb_true_r.
Qed.

Lemma search_print_call_complete a ws b :
  blank ws →
  ∀ pw, word_before pw a = false →
        search_print_call pw (a +:+ "print" +:+ ws +:+ "(" +:+ b) = true.
Proof.
  intros Hws. induction a as [|c a IH]; intros pw Hpw;
    rewrite search_print_call_unfold.
  - rewrite str_app_nil_l, after_app. cbn in Hpw. subst pw.
    cbn [PyStr.andthen]. rewrite (lstrip_blank_app _ _ Hws).
    by rewrite (lstrip_solid ("(" +:+ b)), after_app.
  - rewrite str_app_cons. rewrite word_before_cons in Hpw.
    by rewrite (IH _ Hpw), orb_true_r.
Qed.

Lemma quote_app q s : q ∈ ["'"; PyStr.dq] → quote (q +:+ s) = Some s.
Proof. intros Hq. set_unfold in Hq. by destruct_or! Hq; subst q. Qed.

Lemma search_main_guard_complete a ws1 ws2 q1 q2 b :
  blank ws1 → blank ws2 → q1 ∈ ["'"; PyStr.dq] → q2 ∈ ["'"; PyStr.dq] →
  search_main_guard
    (a +:+ "if __name__" +:+ ws1 +:+ "==" +:+ ws2 +:+ q1 +:+ "__main__"
     +:+ q2 +:+ b) = true.
Proof.
  intros H1 H2 Hq1 Hq2.
  induction a as [|c a IH]; rewrite search_main_guard_unfold.
  - rewrite str_app_nil_l, after_app. cbn [PyStr.andthen].
    rewrite (lstrip_blank_app _ _ H1), (lstrip_solid ("==" +:+ _)) by done.
    rewrite after_app. cbn [PyStr.andthen].
    rewrite (lstrip_blank_app _ _ H2).
    assert (PyStr.lstrip (q1 +:+ "__main__" +:+ q2 +:+ b)
            = q1 +:+ "__main__" +:+ q2 +:+ b) as ->.
    { set_unfold in Hq1. by destruct_or! Hq1; subst q1. }
    rewrite (quote_app _ _ Hq1). cbn [PyStr.andthen].
    rewrite after_app. cbn [PyStr.andthen]. by rewrite (quote_app _ _ Hq2).
  - rewrite str_app_cons. by rewrite IH, orb_true_r.
Qed.

(** X20. Code that the function-only generator accepts is returned as it
    is, and has none of the three forbidden texts anywhere in it, comments
    and string literals included: no [INPUT_TEXT] standing as a word, no
    word-initial [print] followed by a bracket (with or without white space
    in between), and no test of [__name__] against a quoted [__main__]. *)
Theorem function_only_code_has_no_forbidden_text (code out : string) :
  validate_function_only code = Return out →
  out = code
  ∧ (∀ a b, code = a +:+ "INPUT_TEXT" +:+ b →
            boundary_after a → ¬ boundary_before b)
  ∧ (∀ a ws b, code = a +:+ "print" +:+ ws +:+ "(" +:+ b →
               blank ws → ¬ boundary_after a)
  ∧ (∀ a ws1 ws2 q1 q2 b,
       code = a +:+ "if __name__" +:+ ws1 +:+ "==" +:+ ws2 +:+ q1
              +:+ "__main__" +:+ q2 +:+ b →
       blank ws1 → blank ws2 → q1 ∈ ["'"; PyStr.dq] →
       ¬ q2 ∈ ["'"; PyStr.dq]).
Proof.
  unfold validate_function_only. destruct (has_required code); [|done].
  destruct (violates_function_only code) eqn:E; [done|]. intros [= <-].
  unfold violates_function_only in E.
  apply orb_false_iff in E as [[Hg Hi]%orb_false_iff Hp].
  assert (∀ a, boundary_after a → word_before false a = false) as Hword.
  { intros a. unfold boundary_after, word_before.
    by destruct (PyStr.unsnoc a) as [[??]|]. }
  split; [done|]. split; [|split].
  - intros a b -> Ha Hb.
    by rewrite (search_INPUT_TEXT_complete a b false (Hword a Ha) Hb) in Hi.
  - intros a ws b -> Hws Ha.
    by rewrite (search_print_call_complete a ws b Hws false (Hword a Ha)) in Hp.
  - intros a ws1 ws2 q1 q2 b -> H1 H2 Hq1 Hq2.
    by rewrite (search_main_guard_complete a ws1 ws2 q1 q2 b) in Hg.
Qed.

(** The fixture of the generators is accepted. *)
Lemma function_only_code_has_no_forbidden_text_witness :
  contract_source = contract_source
  ∧ (∀ a b, contract_source = a +:+ "INPUT_TEXT" +:+ b →
            boundary_after a → ¬ boundary_before b)
  ∧ (∀ a ws b, contract_source = a +:+ "print" +:+ ws +:+ "(" +:+ b →
               blank ws → ¬ boundary_after a)
  ∧ (∀ a ws1 ws2 q1 q2 b,
       contract_source = a +:+ "if __name__" +:+ ws1 +:+ "==" +:+ ws2 +:+ q1
                         +:+ "__main__" +:+ q2 +:+ b →
       blank ws1 → blank ws2 → q1 ∈ ["'"; PyStr.dq] →
       ¬ q2 ∈ ["'"; PyStr.dq]).
Proof.
  apply (function_only_code_has_no_forbidden_text contract_source
           contract_source).
  vm_compute. reflexivity.
Defined.

(** ** The fence of [dynamic_agent.py] *)

Lemma after_python_fence_unfold s :
  after_python_fence s
  = match PyStr.andthen (PyStr.after FENCE s) (PyStr.after_ci "python") with
    | Some r => Some r
    | None =>
        match s with
        | "" => None
        | String _ s' => after_python_fence s'
        end
    end.
Proof. by destruct s. Qed.

Lemma after_FENCE_cons c s : c ≠ "`"%char → PyStr.after FENCE (String c s) = None.
Proof. intros Hc. unfold PyStr.after. by rewrite startswith_FENCE_cons. Qed.

Lemma after_python_fence_skip pre s :
  no_backquote pre → after_python_fence (pre +:+ s) = after_python_fence s.
Proof.
  induction pre as [|c pre IH]; [done|]. intros [Hc Hpre]%no_backquote_cons.
  rewrite str_app_cons, after_python_fence_unfold.
  rewrite after_FENCE_cons by done. cbn [PyStr.andthen]. by apply IH.
Qed.

Lemma after_python_fence_none s : no_backquote s → after_python_fence s = None.
Proof.
  intros Hs. rewrite <- (str_app_nil_r s).
  by rewrite after_python_fence_skip.
Qed.

(** At a fence that no back quote follows, the search takes the fence if
    the word comes next, and goes on after the fence if not. *)
Lemma after_python_fence_at_fence s :
  PyStr.startswith s "`" = false →
  after_python_fence (FENCE +:+ s)
  = match PyStr.after_ci "python" s with
    | Some r => Some r
    | None => after_python_fence s
    end.
Proof.
  intros Hs. rewrite after_python_fence_unfold, after_app.
  cbn [PyStr.andthen]. destruct (PyStr.after_ci "python" s); [done|].
  assert (∀ t, PyStr.after FENCE (String "`" t)
               = if PyStr.startswith t "``" then Some (PyStr.drop 2 t)
                 else None) as Hafter.
  { intros t. unfold PyStr.after. cbn. by destruct (PyStr.startswith t "``"). }
  unfold FENCE. str_norm.
  rewrite after_python_fence_unfold, Hafter.
  assert (∀ c t p, PyStr.startswith (String c t) (String "`" p)
                   = bool_decide ("`"%char = c) && PyStr.startswith t p)
    as Hcons by done.
  assert (PyStr.startswith (String "`" s) "``" = false) as ->
    by (by rewrite Hcons, Hs, andb_false_r).
  cbn [PyStr.andthen].
  rewrite after_python_fence_unfold, Hafter.
  assert (PyStr.startswith s "``" = false) as ->.
  { destruct s as [|c s]; [done|]. rewrite Hcons in Hs |- *.
    apply andb_false_iff in Hs as [-> | Hs]; [done|].
    by destruct s. }
  done.
Qed.

Lemma partition_None sep s :
  PyStr.contains sep s = false → PyStr.partition sep s = None.
Proof.
  intros H. destruct (PyStr.partition sep s) as [[a b]|] eqn:E; [|done].
  apply partition_Some in E.
  assert (PyStr.contains sep s = true); [|congruence].
  apply contains_spec. eauto.
Qed.

Lemma no_backquote_startswith s :
  no_backquote s → PyStr.startswith s "`" = false.
Proof.
  destruct s as [|c s]; [done|]. intros [Hc _]%no_backquote_cons. cbn.
  rewrite bool_decide_eq_false_2; [done|]. congruence.
Qed.

(** X21. The generator of [dynamic_agent.py] takes a block only when the
    word [python] follows the opening fence: a completion whose only block
    is fenced without a word, or with [py], gives the [ValueError] for a
    missing code block, whatever the block holds. *)
Theorem cli_generator_asks_for_the_python_tag
    (pre tag src post : string) :
  no_backquote pre → no_backquote src → no_backquote post →
  tag ∈ [""; "py"] →
  cli_validate
    (Some (pre +:+ FENCE +:+ tag +:+ PyStr.nl +:+ src +:+ FENCE +:+ post))
  = Raise (Exn ValueError "No python code block found in LLM output." None).
Proof.
  intros Hpre Hsrc Hpost Htag. unfold cli_validate, cli_CODE_FENCE_search.
  cbn [default from_option id].
  assert (no_backquote tag) as Hno
    by (set_unfold in Htag; by destruct_or! Htag; subst tag).
  assert (after_python_fence
            (pre +:+ FENCE +:+ tag +:+ PyStr.nl +:+ src +:+ FENCE +:+ post)
          = match PyStr.after_ci "python" post with
            | Some r => Some r
            | None => None
            end) as ->.
  { rewrite after_python_fence_skip by done.
    rewrite after_python_fence_at_fence
      by (set_unfold in Htag; by destruct_or! Htag; subst tag).
    assert (PyStr.after_ci "python"
              (tag +:+ PyStr.nl +:+ src +:+ FENCE +:+ post) = None) as ->
      by (set_unfold in Htag; by destruct_or! Htag; subst tag).
    rewrite <- (str_app_assoc PyStr.nl src), <- (str_app_assoc tag).
    rewrite after_python_fence_skip
      by (rewrite !no_backquote_app; by repeat split).
    rewrite after_python_fence_at_fence by (by apply no_backquote_startswith).
    destruct (PyStr.after_ci "python" post); [done|].
    by apply after_python_fence_none. }
  destruct (PyStr.after_ci "python" post) as [r|] eqn:E; [|done].
  cbn [PyStr.andthen].
  apply after_ci_Some in E as (t & -> & _); [|done].
  apply no_backquote_app in Hpost as [_ Hr].
  by rewrite partition_None
    by apply no_backquote_contains, no_backquote_lstrip, Hr.
Qed.

(** A block fenced without a word. *)
Lemma cli_generator_asks_for_the_python_tag_witness :
  cli_validate
    (Some ("Here you are:" +:+ FENCE +:+ "" +:+ PyStr.nl +:+ contract_source
           +:+ FENCE +:+ ""))
  = Raise (Exn ValueError "No python code block found in LLM output." None).
Proof.
  apply (cli_generator_asks_for_the_python_tag "Here you are:" ""
           contract_source "");
    [reflexivity|reflexivity|reflexivity|repeat constructor].
Defined.
